(** * Book Buddy: the lending transaction workflow

    A shallow embedding of the server's controllers
    ([transactionControllers.ts], [bookControllers.ts]), of the tables they
    work on ([db/schema.ts]) and of the request validators
    ([transactionValidator.ts], [bookValidator.ts]).

    The database is a pair of tables: [books], keyed by the primary key,
    and [transactions], a list of rows in insertion order.  Every
    controller is a function from the database and the request to the new
    database and the response; each [await]ed statement is one step of
    that function, in the order of the source, and one request is handled
    at a time.  The [users] table and the [createdAt]/[updatedAt] columns
    are left out: no controller below reads them. *)

From Stdlib Require Import ZArith Bool List.
From stdpp Require Import gmap strings list fin_maps.
Import ListNotations.
Open Scope Z_scope.

(** ** Schema *)

(** [transactionTypeEnum] *)
Inductive TransactionType := Free | Exchange.

(** [transactionStatusEnum] *)
Inductive TransactionStatus := available | pending | approved | rejected | shared.

Definition TransactionType_eqb (a b : TransactionType) : bool :=
  match a, b with
  | Free, Free | Exchange, Exchange => true
  | _, _ => false
  end.

Definition is_pending (s : TransactionStatus) : bool :=
  match s with pending => true | _ => false end.

Definition TransactionStatus_to_string (s : TransactionStatus) : string :=
  match s with
  | available => "available"
  | pending => "pending"
  | approved => "approved"
  | rejected => "rejected"
  | shared => "shared"
  end.

(** A row of [books]; the [id] column is the key of the table.  [status]
    is a [varchar] column, hence a string. *)
Module Book.
Record t := mk {
  title : string;
  author : string;
  genre : string;
  ageGroup : string;
  coverImage : string;
  availabilityType : TransactionType;
  status : string;
  ownerId : Z
}.

Definition set_status (s : string) (b : t) : t :=
  mk (title b) (author b) (genre b) (ageGroup b) (coverImage b)
     (availabilityType b) s (ownerId b).
End Book.

(** A row of [transactions]. *)
Module Transaction.
Record t := mk {
  id : Z;
  requesterId : Z;
  requestedBookId : Z;
  ownerId : Z;
  type : TransactionType;
  offeredBookId : option Z;
  status : TransactionStatus
}.

Definition set_status (s : TransactionStatus) (x : t) : t :=
  mk (id x) (requesterId x) (requestedBookId x) (ownerId x) (type x)
     (offeredBookId x) s.
End Transaction.

(** The database: both tables and the two identity sequences. *)
Record Db := mkDb {
  books : gmap Z Book.t;
  transactions : list Transaction.t;
  books_seq : Z;
  transactions_seq : Z
}.

(** ** Table operations *)

(** [db.update(books).set({ status }).where(eq(books.id, i))] *)
Definition update_book_status (i : Z) (s : string)
    (bs : gmap Z Book.t) : gmap Z Book.t :=
  alter (Book.set_status s) i bs.

(** [db.update(transactions).set({ status }).where(eq(transactions.id, i))] *)
Definition update_transaction_status (i : Z) (s : TransactionStatus)
    (ts : list Transaction.t) : list Transaction.t :=
  map (fun x => if Transaction.id x =? i then Transaction.set_status s x else x) ts.

(** [db.select().from(transactions).where(eq(transactions.id, i)).limit(1)] *)
Definition select_transaction (i : Z) (ts : list Transaction.t)
    : option Transaction.t :=
  List.find (fun x => Transaction.id x =? i) ts.

(** [db.select().from(transactions).where(eq(transactions.requestedBookId, b))] *)
Definition select_by_requestedBook (b : Z) (ts : list Transaction.t)
    : list Transaction.t :=
  List.filter (fun x => Transaction.requestedBookId x =? b) ts.

(** The pending-request query of [createTransaction]:
    [where(and(eq(requesterId, u), eq(requestedBookId, b), eq(status, "pending"))).limit(1)] *)
Definition select_pending_request (u b : Z) (ts : list Transaction.t)
    : option Transaction.t :=
  List.find (fun x => (Transaction.requesterId x =? u)
                      && (Transaction.requestedBookId x =? b)
                      && is_pending (Transaction.status x)) ts.

(** ** JavaScript values *)

(** A number used as a condition: [undefined], [null], [NaN] (all [None])
    and [0] are falsy. *)
Definition truthy (n : option Z) : option Z :=
  match n with
  | Some z => if z =? 0 then None else Some z
  | None => None
  end.

(** ** Responses *)

(** [res.status(code).json({ success, message, data })]; the [errors]
    array that accompanies some failures is not represented. *)
Record Response (A : Type) := mkResponse {
  code : Z;
  message : string;
  data : option A
}.
Arguments mkResponse {A} _ _ _.
Arguments code {A} _.
Arguments message {A} _.
Arguments data {A} _.

Definition failure {A} (c : Z) (m : string) : Response A := mkResponse c m None.
Definition success {A} (c : Z) (m : string) (d : option A) : Response A :=
  mkResponse c m d.

(** A handler runs its checks in sequence and leaves at the first
    [return res.status(...)]: the left summand is that early response. *)
Definition require {R A} (o : option A) (r : R) : R + A :=
  match o with Some a => inr a | None => inl r end.

Definition reject_if {R} (b : bool) (r : R) : R + unit :=
  if b then inl r else inr tt.

Notation "'get!' x := e 'in' k" :=
  (match e with inl r => inl r | inr x => k end)
  (at level 10, x name, e at level 100, k at level 200).
Notation "'check!' e 'in' k" :=
  (match e with inl r => inl r | inr _ => k end)
  (at level 10, e at level 100, k at level 200).

(** ** transactionValidator.ts *)

(** The JSON body of [POST /transaction].  Fields are typed: a body whose
    field has the wrong JSON type is not represented. *)
Module CreateTransactionBody.
Record t := mk {
  requestedBookId : Z;
  ownerId : Z;
  type : string;
  offeredBookId : option Z
}.
End CreateTransactionBody.

(** [CreateTransactionInput], the output type of [createTransactionSchema]. *)
Module CreateTransactionInput.
Record t := mk {
  requestedBookId : Z;
  ownerId : Z;
  type : TransactionType;
  offeredBookId : option Z
}.
End CreateTransactionInput.

(** [z.enum(["Free", "Exchange"])] *)
Definition parse_TransactionType (s : string) : option TransactionType :=
  if (s =? "Free")%string then Some Free
  else if (s =? "Exchange")%string then Some Exchange
  else None.

(** [z.enum(["available", "pending", "approved", "rejected", "shared"])] *)
Definition parse_TransactionStatus (s : string) : option TransactionStatus :=
  if (s =? "available")%string then Some available
  else if (s =? "pending")%string then Some pending
  else if (s =? "approved")%string then Some approved
  else if (s =? "rejected")%string then Some rejected
  else if (s =? "shared")%string then Some shared
  else None.

(** The [.refine] of [createTransactionSchema]. *)
Definition createTransaction_refine (ty : TransactionType) (offered : option Z) : bool :=
  match ty, truthy offered with
  | Exchange, None => false
  | Free, Some _ => false
  | _, _ => true
  end.

(** [createTransactionSchema.safeParse(req.body)]; [None] when
    [success] is false.  [.int()] also refuses a number above the largest
    safe integer, which lies beyond the range of the keys ([max_integer]
    below); the ids are taken within that range. *)
Definition createTransactionSchema (body : CreateTransactionBody.t)
    : option CreateTransactionInput.t :=
  match parse_TransactionType (CreateTransactionBody.type body) with
  | None => None
  | Some ty =>
    if (0 <? CreateTransactionBody.requestedBookId body)
       && (0 <? CreateTransactionBody.ownerId body)
       && match CreateTransactionBody.offeredBookId body with
          | Some o => 0 <? o
          | None => true
          end
       && createTransaction_refine ty (CreateTransactionBody.offeredBookId body)
    then Some (CreateTransactionInput.mk
                 (CreateTransactionBody.requestedBookId body)
                 (CreateTransactionBody.ownerId body)
                 ty
                 (CreateTransactionBody.offeredBookId body))
    else None
  end.

(** The JSON body of [PATCH /transaction/:id]; only its [status] key is
    represented. *)
Module UpdateTransactionBody.
Record t := mk { status : string }.
End UpdateTransactionBody.

(** [updateTransactionSchema.safeParse({ id: transactionId, ...req.body })];
    the result is the parsed [status]. *)
Definition updateTransactionSchema (transactionId : Z)
    (body : UpdateTransactionBody.t) : option TransactionStatus :=
  if 0 <? transactionId
  then parse_TransactionStatus (UpdateTransactionBody.status body)
  else None.

(** ** transactionControllers.ts: createTransaction *)

(** The checks of [createTransaction], up to the last early return.  The
    result is the authenticated user and the parsed body.  The ids are
    taken within the range of the [integer()] columns ([max_integer]
    below): a query that is given a larger id throws, and the [catch]
    answers 500 without a write. *)
Definition createTransaction_checks (db : Db) (user : option Z)
    (body : CreateTransactionBody.t)
    : Response Transaction.t + (Z * CreateTransactionInput.t) :=
  get! userId := require (truthy user) (failure 401 "Authentication required") in
  get! input := require (createTransactionSchema body)
                        (failure 400 "Validation failed") in
  let requestedBookId := CreateTransactionInput.requestedBookId input in
  let offeredBookId := CreateTransactionInput.offeredBookId input in
  get! book := require (books db !! requestedBookId)
                       (failure 404 "Book not found") in
  check! reject_if (negb (Book.status book =? "available")%string)
                   (failure 400 "Book is not available for request") in
  check! reject_if (negb (Book.ownerId book =? CreateTransactionInput.ownerId input))
                   (failure 400 "Invalid owner ID for this book") in
  check! match CreateTransactionInput.type input with
         | Exchange =>
             get! offered := require (truthy offeredBookId)
                 (failure 400 "Offered book is required for exchange type") in
             get! offeredBook := require (books db !! offered)
                 (failure 404 "Offered book not found") in
             check! reject_if (negb (Book.ownerId offeredBook =? userId))
                 (failure 403 "You can only offer your own books") in
             check! reject_if (negb (Book.status offeredBook =? "available")%string)
                 (failure 400 "Offered book is not available") in
             reject_if (offered =? requestedBookId)
                 (failure 400 "Cannot offer the same book you're requesting")
         | Free => inr tt
         end in
  check! reject_if (Book.ownerId book =? userId)
                   (failure 400 "You cannot request your own book") in
  check! reject_if (negb (TransactionType_eqb (Book.availabilityType book)
                                              (CreateTransactionInput.type input)))
                   (failure 400 "Transaction type must match book availability type") in
  match select_pending_request userId requestedBookId (transactions db) with
  | Some _ => inl (failure 400 "You already have a pending request for this book")
  | None => inr (userId, input)
  end.

(** The row inserted by [createTransaction]. *)
Definition new_transaction (db : Db) (userId : Z)
    (input : CreateTransactionInput.t) : Transaction.t :=
  Transaction.mk (transactions_seq db) userId
    (CreateTransactionInput.requestedBookId input)
    (CreateTransactionInput.ownerId input)
    (CreateTransactionInput.type input)
    (truthy (CreateTransactionInput.offeredBookId input))
    pending.

Definition createTransaction (db : Db) (user : option Z)
    (body : CreateTransactionBody.t) : Db * Response Transaction.t :=
  match createTransaction_checks db user body with
  | inl r => (db, r)
  | inr (userId, input) =>
      let newTransaction := new_transaction db userId input in
      let bs1 := update_book_status
                   (CreateTransactionInput.requestedBookId input) "pending"
                   (books db) in
      let bs2 :=
        match CreateTransactionInput.type input,
              truthy (CreateTransactionInput.offeredBookId input) with
        | Exchange, Some offered => update_book_status offered "pending" bs1
        | _, _ => bs1
        end in
      (mkDb bs2 (transactions db ++ [newTransaction])
            (books_seq db) (transactions_seq db + 1),
       success 201 "Book request submitted successfully" (Some newTransaction))
  end.

(** ** transactionControllers.ts: updateTransaction *)

(** The row and the joined book that [updateTransaction] reads:
    [select().from(transactions).innerJoin(books, eq(requestedBookId, books.id))
     .where(eq(transactions.id, i)).limit(1)] *)
Definition select_transaction_with_book (db : Db) (i : Z)
    : option (Transaction.t * Book.t) :=
  match select_transaction i (transactions db) with
  | Some x =>
      match books db !! Transaction.requestedBookId x with
      | Some b => Some (x, b)
      | None => None
      end
  | None => None
  end.

(** [["approved", "rejected"].includes(status)] *)
Definition is_resolution (s : TransactionStatus) : bool :=
  match s with approved | rejected => true | _ => false end.

(** The checks of [updateTransaction]; [id] is [parseInt(req.params.id)],
    [None] for [NaN].  The result is the target row and the new status.
    The id is taken within the range of the [integer()] column, as in
    [createTransaction], and the body without an [id] key of its own,
    which would be validated in place of the one of the path. *)
Definition updateTransaction_checks (db : Db) (user : option Z)
    (id : option Z) (body : UpdateTransactionBody.t)
    : Response Transaction.t + (Z * Transaction.t * TransactionStatus) :=
  get! userId := require (truthy user) (failure 401 "Authentication required") in
  get! transactionId := require (truthy id)
                          (failure 400 "Transaction ID must be a valid number") in
  get! status := require (updateTransactionSchema transactionId body)
                         (failure 400 "Validation failed") in
  get! row := require (select_transaction_with_book db transactionId)
                      (failure 404 "Transaction not found") in
  let '(transaction, book) := row in
  check! reject_if (negb (Book.ownerId book =? userId))
           (failure 403 "Only the book owner can update transaction status") in
  check! reject_if (negb (is_pending (Transaction.status transaction)))
           (failure 400 "Only pending transactions can be updated") in
  check! reject_if (negb (is_resolution status))
           (failure 400 "Status can only be changed to approved or rejected") in
  inr (transactionId, transaction, status).

(** One turn of the loop over [otherPendingTransactions]; the accumulator
    is the pair of tables the loop writes to. *)
Definition reject_other (transactionId : Z)
    (acc : list Transaction.t * gmap Z Book.t)
    (otherTransaction : Transaction.t) : list Transaction.t * gmap Z Book.t :=
  if negb (Transaction.id otherTransaction =? transactionId)
     && is_pending (Transaction.status otherTransaction)
  then
    (update_transaction_status (Transaction.id otherTransaction) rejected (fst acc),
     match truthy (Transaction.offeredBookId otherTransaction) with
     | Some offered => update_book_status offered "available" (snd acc)
     | None => snd acc
     end)
  else acc.

Definition updateTransaction (db : Db) (user : option Z) (id : option Z)
    (body : UpdateTransactionBody.t) : Db * Response Transaction.t :=
  match updateTransaction_checks db user id body with
  | inl r => (db, r)
  | inr (transactionId, transaction, status) =>
      let ts1 := update_transaction_status transactionId status (transactions db) in
      let updatedTransaction := select_transaction transactionId ts1 in
      let '(bookStatus, (ts2, bs2)) :=
        match status with
        | approved =>
            let otherPendingTransactions :=
              select_by_requestedBook (Transaction.requestedBookId transaction) ts1 in
            ("approved"%string,
             fold_left (reject_other transactionId) otherPendingTransactions
                       (ts1, books db))
        | _ =>
            ("available"%string,
             (ts1,
              match truthy (Transaction.offeredBookId transaction) with
              | Some offered => update_book_status offered "available" (books db)
              | None => books db
              end))
        end in
      let bs3 := update_book_status (Transaction.requestedBookId transaction)
                                    bookStatus bs2 in
      (mkDb bs3 ts2 (books_seq db) (transactions_seq db),
       success 200
         ("Transaction " ++ TransactionStatus_to_string status ++ " successfully")%string
         updatedTransaction)
  end.

(** ** bookValidator.ts *)

(** The JSON body of [POST /books] and [PATCH /books/:id]: the keys that
    [bookSchema] knows, each possibly absent, and a [status] key, which
    the schema does not know. *)
Module BookBody.
Record t := mk {
  title : option string;
  author : option string;
  genre : option string;
  ageGroup : option string;
  coverImage : option string;
  availabilityType : option string;
  ownerId : option Z;
  status : option string
}.

(** [{ ...req.body, ownerId: userId }] *)
Definition with_ownerId (userId : Z) (b : t) : t :=
  mk (title b) (author b) (genre b) (ageGroup b) (coverImage b)
     (availabilityType b) (Some userId) (status b).
End BookBody.

(** [Partial<BookInput>], the output type of [bookSchema.partial()]; a
    [z.object] drops the keys it does not know, so there is no [status]. *)
Module BookInput.
Record t := mk {
  title : option string;
  author : option string;
  genre : option string;
  ageGroup : option string;
  coverImage : option string;
  availabilityType : option TransactionType;
  ownerId : option Z
}.

(** Every key is present, as [bookSchema] itself demands. *)
Definition complete (d : t) : bool :=
  match title d, author d, genre d, ageGroup d, coverImage d,
        availabilityType d, ownerId d with
  | Some _, Some _, Some _, Some _, Some _, Some _, Some _ => true
  | _, _, _, _, _, _, _ => false
  end.
End BookInput.

(** [z.string().min(lo).max(hi)]; the two lengths agree on ASCII
    text, where a character is one code unit. *)
Definition string_between (lo hi : nat) (s : string) : option string :=
  if ((lo <=? String.length s)%nat && (String.length s <=? hi)%nat)%bool
  then Some s else None.

(** An optional key: absent is accepted, present must parse. *)
Definition optional {A B} (p : A -> option B) (f : option A) : option (option B) :=
  match f with
  | None => Some None
  | Some a => match p a with Some b => Some (Some b) | None => None end
  end.

Section BookControllers.

(** [z.string().url()]: the URL test of the validation library. *)
Variable is_url : string -> bool.

(** [bookSchema.partial().safeParse(body)] *)
Definition bookSchema_partial (body : BookBody.t) : option BookInput.t :=
  match optional (string_between 2 100) (BookBody.title body),
        optional (string_between 2 100) (BookBody.author body),
        optional (string_between 2 50) (BookBody.genre body),
        optional (string_between 2 10) (BookBody.ageGroup body),
        optional (fun s => if is_url s then Some s else None) (BookBody.coverImage body),
        optional parse_TransactionType (BookBody.availabilityType body),
        optional (fun n => if 1 <=? n then Some n else None) (BookBody.ownerId body)
  with
  | Some t, Some a, Some g, Some ag, Some c, Some av, Some o =>
      Some (BookInput.mk t a g ag c av o)
  | _, _, _, _, _, _, _ => None
  end.

(** [bookSchema.safeParse(body)]: as above, and no key is missing. *)
Definition bookSchema (body : BookBody.t) : option BookInput.t :=
  match bookSchema_partial body with
  | Some d => if BookInput.complete d then Some d else None
  | None => None
  end.

(** ** bookControllers.ts *)

(** [db.insert(books).values(bookData)]: the new row; [status] takes the
    column default. *)
Definition new_book (d : BookInput.t) : Book.t :=
  Book.mk (default "" (BookInput.title d)) (default "" (BookInput.author d))
          (default "" (BookInput.genre d)) (default "" (BookInput.ageGroup d))
          (default "" (BookInput.coverImage d))
          (default Free (BookInput.availabilityType d))
          "available"
          (default 0 (BookInput.ownerId d)).

(** [db.update(books).set({ ...validationResult.data })]: the keys present
    in the parsed body overwrite the columns of the same name. *)
Definition set_book (d : BookInput.t) (b : Book.t) : Book.t :=
  Book.mk (default (Book.title b) (BookInput.title d))
          (default (Book.author b) (BookInput.author d))
          (default (Book.genre b) (BookInput.genre d))
          (default (Book.ageGroup b) (BookInput.ageGroup d))
          (default (Book.coverImage b) (BookInput.coverImage d))
          (default (Book.availabilityType b) (BookInput.availabilityType d))
          (Book.status b)
          (default (Book.ownerId b) (BookInput.ownerId d)).

(** The strings are taken within the 255 characters of the [varchar]
    columns; a longer one makes the insert throw. *)
Definition createBook (db : Db) (user : option Z) (body : BookBody.t)
    : Db * Response Book.t :=
  match
    get! userId := require (truthy user) (failure 401 "Authentication required") in
    require (bookSchema (BookBody.with_ownerId userId body))
            (failure 400 "Validation failed")
  with
  | inl r => (db, r)
  | inr bookData =>
      let newBook := new_book bookData in
      (mkDb (<[books_seq db := newBook]> (books db)) (transactions db)
            (books_seq db + 1) (transactions_seq db),
       success 201 "Book created successfully" (Some newBook))
  end.

(** [id] is [parseInt(req.params.id)].  The new [ownerId], when given, is
    taken to name a row of [users]: for another number the foreign key
    refuses the update, and the [catch] answers 500 without a write. *)
Definition updateBook (db : Db) (user : option Z) (id : option Z)
    (body : BookBody.t) : Db * Response Book.t :=
  match
    get! userId := require (truthy user) (failure 401 "Authentication required") in
    get! bookId := require (truthy id) (failure 400 "Book ID must be a valid number") in
    get! existingBook := require (books db !! bookId) (failure 404 "Book not found") in
    check! reject_if (negb (Book.ownerId existingBook =? userId))
                     (failure 403 "You can only update your own books") in
    get! patch := require (bookSchema_partial body) (failure 400 "Validation failed") in
    inr (bookId, patch)
  with
  | inl r => (db, r)
  | inr (bookId, patch) =>
      let bs := alter (set_book patch) bookId (books db) in
      (mkDb bs (transactions db) (books_seq db) (transactions_seq db),
       success 200 "Book updated successfully" (bs !! bookId))
  end.

(** A row of [transactions] refers to book [i] through one of its two
    foreign keys. *)
Definition references (i : Z) (x : Transaction.t) : bool :=
  (Transaction.requestedBookId x =? i)
  || match Transaction.offeredBookId x with
     | Some o => o =? i
     | None => false
     end.

(** The foreign keys of [transactions] have no [onDelete] action: deleting
    a referenced book throws, and the handler answers 500. *)
Definition deleteBook (db : Db) (user : option Z) (id : option Z)
    : Db * Response Book.t :=
  match
    get! userId := require (truthy user) (failure 401 "Authentication required") in
    get! bookId := require (truthy id) (failure 400 "Book ID must be a valid number") in
    get! existingBook := require (books db !! bookId) (failure 404 "Book not found") in
    check! reject_if (negb (Book.ownerId existingBook =? userId))
                     (failure 403 "You can only delete your own books") in
    check! reject_if (existsb (references bookId) (transactions db))
                     (failure 500 "Internal server error") in
    inr bookId
  with
  | inl r => (db, r)
  | inr bookId =>
      (mkDb (delete bookId (books db)) (transactions db)
            (books_seq db) (transactions_seq db),
       success 200 "Book deleted successfully" None)
  end.

(** ** The server as a transition system *)

(** The requests of [bookRoutes.ts] and [transactionRoutes.ts] that write
    to the database, with the authenticated user of the request. *)
Inductive Request :=
  | POST_books (user : option Z) (body : BookBody.t)
  | PATCH_books (user : option Z) (id : option Z) (body : BookBody.t)
  | DELETE_books (user : option Z) (id : option Z)
  | POST_transaction (user : option Z) (body : CreateTransactionBody.t)
  | PATCH_transaction (user : option Z) (id : option Z)
                      (body : UpdateTransactionBody.t).

Definition is_transaction_request (r : Request) : bool :=
  match r with
  | POST_transaction _ _ | PATCH_transaction _ _ _ => true
  | _ => false
  end.

Definition handle (db : Db) (r : Request) : Db :=
  match r with
  | POST_books u b => fst (createBook db u b)
  | PATCH_books u i b => fst (updateBook db u i b)
  | DELETE_books u i => fst (deleteBook db u i)
  | POST_transaction u b => fst (createTransaction db u b)
  | PATCH_transaction u i b => fst (updateTransaction db u i b)
  end.

(** Every book is [available], its key was drawn from the sequence, and
    there is no transaction yet; identity sequences start at 1. *)
Definition initial (db : Db) : Prop :=
  transactions db = [] /\
  0 < transactions_seq db /\
  forall i b, books db !! i = Some b ->
    Book.status b = "available"%string /\ i < books_seq db.

Inductive reachable : Db -> Prop :=
  | reachable_initial db : initial db -> reachable db
  | reachable_handle db r : reachable db -> reachable (handle db r).

End BookControllers.

(** ** The cascade of [updateTransaction] in closed form *)

(** The test of the loop body. *)
Definition is_other_pending (transactionId : Z) (o : Transaction.t) : bool :=
  negb (Transaction.id o =? transactionId) && is_pending (Transaction.status o).

(** Row [x] is written by some turn of the loop over [others]. *)
Definition rejected_by (transactionId : Z) (others : list Transaction.t)
    (x : Transaction.t) : bool :=
  existsb (fun o => is_other_pending transactionId o
                    && (Transaction.id o =? Transaction.id x)) others.

(** Book [j] is released by some turn of the loop over [others]. *)
Definition released_by (transactionId : Z) (others : list Transaction.t)
    (j : Z) : bool :=
  existsb (fun o => is_other_pending transactionId o
                    && bool_decide (truthy (Transaction.offeredBookId o) = Some j))
          others.

(** ** The vocabulary of the specification *)

(** The error taxonomy of the specification, read off the responses of the
    controllers: the HTTP status decides, and among the 400 responses the
    messages that report a state precondition (item not requestable,
    offered item not available, duplicate request, already resolved) are
    conflicts. *)
Inductive ErrorKind :=
  | AuthenticationError
  | ValidationError
  | NotFoundError
  | ForbiddenError
  | ConflictError
  | InfrastructureError.

Definition conflict_messages : list string :=
  [ "Book is not available for request";
    "Offered book is not available";
    "You already have a pending request for this book";
    "Only pending transactions can be updated" ]%string.

Definition error_kind {A} (r : Response A) : option ErrorKind :=
  if code r =? 401 then Some AuthenticationError
  else if code r =? 403 then Some ForbiddenError
  else if code r =? 404 then Some NotFoundError
  else if code r =? 500 then Some InfrastructureError
  else if code r =? 400 then
    if existsb (String.eqb (message r)) conflict_messages
    then Some ConflictError else Some ValidationError
  else None.

(** A pending request refers to book [i], as requested or as offered
    book. *)
Definition pending_reference (db : Db) (i : Z) : Prop :=
  exists x, In x (transactions db) /\ Transaction.status x = pending /\
            references i x = true.

(** The coupling of the two status columns: a book is [pending] exactly
    when a pending request refers to it. *)
Definition status_tracks_requests (db : Db) : Prop :=
  forall i b, books db !! i = Some b ->
    (Book.status b = "pending"%string <-> pending_reference db i).








(** ** The invariant of the reachable databases *)

Record consistent (db : Db) : Prop := mk_consistent {
  (** primary keys come from the identity sequences *)
  sequence_positive : 0 < transactions_seq db;
  transaction_ids_drawn :
    forall x, In x (transactions db) ->
      0 < Transaction.id x < transactions_seq db;
  transaction_ids_unique :
    List.NoDup (map Transaction.id (transactions db));
  book_ids_drawn :
    forall i, is_Some (books db !! i) -> i < books_seq db;
  (** every request was made by an authenticated user *)
  requester_authenticated :
    forall x, In x (transactions db) -> Transaction.requesterId x <> 0;
  (** the foreign key [requestedBookId] *)
  requested_book_exists :
    forall x, In x (transactions db) ->
      is_Some (books db !! Transaction.requestedBookId x);
  (** nobody offers the book they ask for *)
  offered_is_not_requested :
    forall x, In x (transactions db) ->
      Transaction.offeredBookId x <> Some (Transaction.requestedBookId x);
  (** a book a pending request refers to is [pending] *)
  pending_book :
    forall x i, In x (transactions db) -> Transaction.status x = pending ->
      references i x = true ->
      exists b, books db !! i = Some b /\ Book.status b = "pending"%string;
  (** and no other pending request refers to it *)
  pending_unique :
    forall x y i, In x (transactions db) -> In y (transactions db) ->
      Transaction.status x = pending -> Transaction.status y = pending ->
      references i x = true -> references i y = true -> x = y;
  (** the book of an approved request is [approved] *)
  approved_book :
    forall x, In x (transactions db) -> Transaction.status x = approved ->
      exists b, books db !! Transaction.requestedBookId x = Some b /\
                Book.status b = "approved"%string;
  (** and no other approved request asks for it *)
  approved_unique :
    forall x y, In x (transactions db) -> In y (transactions db) ->
      Transaction.status x = approved -> Transaction.status y = approved ->
      Transaction.requestedBookId x = Transaction.requestedBookId y -> x = y
}.

(** What keeps a book [pending]: a pending request that refers to it, or
    an approved request that offered it. *)
Definition offered_by_approved (db : Db) (i : Z) : Prop :=
  exists x, In x (transactions db) /\ Transaction.status x = approved /\
            Transaction.offeredBookId x = Some i.

Definition pending_explained (db : Db) : Prop :=
  (forall x, In x (transactions db) -> Transaction.offeredBookId x <> Some 0) /\
  forall i b, books db !! i = Some b -> Book.status b = "pending"%string ->
    pending_reference db i \/ offered_by_approved db i.

(** ** Rows up to their status *)

(** [b'] agrees with the row [b] of [books] on every column other than
    [status]. *)
Definition same_book (b b' : Book.t) : Prop :=
  Book.title b' = Book.title b /\ Book.author b' = Book.author b /\
  Book.genre b' = Book.genre b /\ Book.ageGroup b' = Book.ageGroup b /\
  Book.coverImage b' = Book.coverImage b /\
  Book.availabilityType b' = Book.availabilityType b /\
  Book.ownerId b' = Book.ownerId b.

(** [x'] agrees with the row [x] of [transactions] on every column other
    than [status]. *)
Definition same_request (x x' : Transaction.t) : Prop :=
  Transaction.id x' = Transaction.id x /\
  Transaction.requesterId x' = Transaction.requesterId x /\
  Transaction.requestedBookId x' = Transaction.requestedBookId x /\
  Transaction.ownerId x' = Transaction.ownerId x /\
  Transaction.type x' = Transaction.type x /\
  Transaction.offeredBookId x' = Transaction.offeredBookId x.

(** ** The range of the keys *)



(** ** The claims as the specification states them *)

(** Authorization by the [ownerId] column of the transaction: for an
    authenticated caller and a well-formed request on an existing
    transaction, Forbidden exactly when the caller is not that owner. *)
Definition forbidden_iff_not_request_owner : Prop :=
  forall is_url db u tid body s x,
    reachable is_url db ->
    u <> 0 -> 0 < tid ->
    parse_TransactionStatus (UpdateTransactionBody.status body) = Some s ->
    select_transaction tid (transactions db) = Some x ->
    (error_kind (snd (updateTransaction db (Some u) (Some tid) body))
       = Some ForbiddenError
     <-> u <> Transaction.ownerId x).

(** Every call on a resolved request, by an authenticated caller with a
    well-formed body, is answered with a conflict. *)
Definition resolved_request_always_conflicts : Prop :=
  forall is_url db x u body s,
    reachable is_url db ->
    In x (transactions db) ->
    Transaction.status x = approved \/ Transaction.status x = rejected ->
    u <> 0 ->
    parse_TransactionStatus (UpdateTransactionBody.status body) = Some s ->
    error_kind (snd (updateTransaction db (Some u) (Some (Transaction.id x)) body))
      = Some ConflictError.

(** ** Scenarios *)

Definition a_book (ty : TransactionType) (owner : Z) : Book.t :=
  Book.mk "Matilda" "Roald Dahl" "Fiction" "8-12"
          "https://example.org/matilda.png" ty "available" owner.

(** Two members, each with a book on exchange. *)
Definition shelf : Db :=
  mkDb (<[1 := a_book Exchange 1]> (<[2 := a_book Exchange 2]> ∅)) [] 3 1.

(** Member 2 asks for book 1 and offers book 2. *)
Definition exchange_request : CreateTransactionBody.t :=
  CreateTransactionBody.mk 1 1 "Exchange" (Some 2).

Definition exchange_requested : Db :=
  fst (createTransaction shelf (Some 2) exchange_request).

(** The row of that request. *)
Definition the_request : Transaction.t :=
  Transaction.mk 1 2 1 1 Exchange (Some 2) pending.

(** Member 1, the owner of book 1, approves. *)
Definition exchange_approved : Db :=
  fst (updateTransaction exchange_requested (Some 1) (Some 1)
         (UpdateTransactionBody.mk "approved")).

(** Instead of resolving, member 1 hands book 1 over to member 3 with
    [PATCH /books/1]; the body also tries to set [status]. *)
Definition hand_over : BookBody.t :=
  BookBody.mk None None None None None None (Some 3) (Some "available"%string).

Definition handed_over (is_url : string -> bool) : Db :=
  fst (updateBook is_url exchange_requested (Some 1) (Some 1) hand_over).

(** Member 1 asks for their own book 1 and offers a book that does not
    exist. *)
Definition own_book_request : CreateTransactionBody.t :=
  CreateTransactionBody.mk 1 1 "Exchange" (Some 99).

(** A book that a pending request refers to. *)
Definition a_pending_book (ty : TransactionType) (owner : Z) : Book.t :=
  Book.mk "Matilda" "Roald Dahl" "Fiction" "8-12"
          "https://example.org/matilda.png" ty "pending" owner.

(** A table with two pending requests for book 1, each offering a book,
    and a request for book 1 that was rejected before. *)
Definition contested : Db :=
  mkDb (<[1 := a_pending_book Exchange 1]>
        (<[2 := a_pending_book Exchange 2]>
         (<[3 := a_pending_book Exchange 3]>
          (<[4 := a_book Exchange 4]> ∅))))
       [ Transaction.mk 1 2 1 1 Exchange (Some 2) pending;
         Transaction.mk 2 3 1 1 Exchange (Some 3) pending;
         Transaction.mk 3 4 1 1 Exchange (Some 4) rejected ]
       5 4.

(** ** userControllers.ts: getUserTransactions *)

(** One entry of the list [getUserTransactions] answers with:
    [{ transaction, requestedBook, transactionType }].  The [requester]
    key, a row of [users], is not represented. *)
Module UserTransaction.
Record t := mk {
  transaction : Transaction.t;
  requestedBook : Book.t;
  transactionType : string
}.
End UserTransaction.

(** [.innerJoin(books, eq(transactions.requestedBookId, books.id))]: the
    rows whose book exists, each with its book. *)
Definition join_requestedBook (bs : gmap Z Book.t) (ts : list Transaction.t)
    : list (Transaction.t * Book.t) :=
  flat_map (fun x => match bs !! Transaction.requestedBookId x with
                     | Some b => [(x, b)]
                     | None => []
                     end) ts.

(** The rows where the user is owner or requester, newest first: rows are
    inserted with increasing [createdAt], so [desc(createdAt)] is the
    reverse of the insertion order.  The join with [users] on
    [requesterId] keeps every row, the requester being a row of [users]. *)
Definition getUserTransactions (db : Db) (user : option Z)
    : Response (list UserTransaction.t) :=
  match truthy user with
  | None => failure 401 "Authentication required"
  | Some userId =>
      let userTransactions :=
        rev (List.filter
               (fun item => (Transaction.ownerId (fst item) =? userId)
                            || (Transaction.requesterId (fst item) =? userId))
               (join_requestedBook (books db) (transactions db))) in
      let transformedTransactions :=
        map (fun item =>
               UserTransaction.mk (fst item) (snd item)
                 (if Transaction.ownerId (fst item) =? userId
                  then "incoming"%string else "outgoing"%string))
            userTransactions in
      success 200 "User transactions retrieved successfully"
              (Some transformedTransactions)
  end.

(** ** Requests and their answers *)

(** [req.user?.userId] of a request. *)
Definition caller (r : Request) : option Z :=
  match r with
  | POST_books u _ | PATCH_books u _ _ | DELETE_books u _
  | POST_transaction u _ | PATCH_transaction u _ _ => u
  end.

(** The HTTP status a request is answered with. *)
Definition response_code (is_url : string -> bool) (db : Db) (r : Request) : Z :=
  match r with
  | POST_books u b => code (snd (createBook is_url db u b))
  | PATCH_books u i b => code (snd (updateBook is_url db u i b))
  | DELETE_books u i => code (snd (deleteBook db u i))
  | POST_transaction u b => code (snd (createTransaction db u b))
  | PATCH_transaction u i b => code (snd (updateTransaction db u i b))
  end.

(** ** More invariants of the reachable databases *)

Record sound (db : Db) : Prop := mk_sound {
  (** an offered book goes with the Exchange type, and only with it *)
  offered_iff_exchange :
    forall x, In x (transactions db) ->
      (Transaction.type x = Exchange <-> is_Some (Transaction.offeredBookId x));
  (** the recorded owner is not the requester *)
  requester_is_not_owner :
    forall x, In x (transactions db) ->
      Transaction.requesterId x <> Transaction.ownerId x;
  (** of the five values of the enum, three are ever stored *)
  transaction_status_known :
    forall x, In x (transactions db) ->
      In (Transaction.status x) [pending; approved; rejected];
  (** the foreign key [offeredBookId] *)
  offered_book_exists :
    forall x o, In x (transactions db) -> Transaction.offeredBookId x = Some o ->
      is_Some (books db !! o);
  (** the values of the [status] column of [books] *)
  book_status_known :
    forall i b, books db !! i = Some b ->
      In (Book.status b) ["available"; "pending"; "approved"]%string;
  (** an [approved] book has its approved request *)
  approved_has_request :
    forall i b, books db !! i = Some b -> Book.status b = "approved"%string ->
      exists x, In x (transactions db) /\ Transaction.status x = approved /\
                Transaction.requestedBookId x = i
}.

(** ** A scenario of the book routes *)

(** The body of a [POST /books] that also names an owner and a status. *)
Definition a_book_body : BookBody.t :=
  BookBody.mk (Some "Matilda"%string) (Some "Roald Dahl"%string)
              (Some "Fiction"%string) (Some "8-12"%string)
              (Some "https://example.org/matilda.png"%string)
              (Some "Exchange"%string) (Some 7) (Some "approved"%string).

(** ** A scenario with two requests *)

(** Member 1 has book 1 on exchange and book 3 for free; member 2 has
    book 2 on exchange. *)
Definition reading_room : Db :=
  mkDb (<[1 := a_book Exchange 1]>
        (<[2 := a_book Exchange 2]> (<[3 := a_book Free 1]> ∅)))
       [] 4 1.

(** Member 2 asks for book 3. *)
Definition free_request : CreateTransactionBody.t :=
  CreateTransactionBody.mk 3 1 "Free" None.

(** Member 2 has asked for book 1, offering book 2, and then for
    book 3. *)
Definition two_requests : Db :=
  fst (createTransaction
         (fst (createTransaction reading_room (Some 2) exchange_request))
         (Some 2) free_request).

(** The row of the second request. *)
Definition the_free_request : Transaction.t :=
  Transaction.mk 2 2 3 1 Free None pending.

(** ** Proof automation *)

(** Closes the case of an early [return] of [createTransaction]: the
    response is a literal. *)
Ltac early_return :=
  intros [= <-];
  (split; [simpl; auto 10|split; [vm_compute; by eexists|done]]).

(** * Properties *)

(** ** JavaScript values and table operations *)

Lemma truthy_Some n z : truthy n = Some z -> n = Some z /\ z <> 0.
Proof.
  destruct n as [m|]; simpl; [|done].
  destruct (Z.eqb_spec m 0); [done|]. intros [= <-]. done.
Qed.

Lemma truthy_nonzero z : z <> 0 -> truthy (Some z) = Some z.
Proof. intros H. simpl. by destruct (Z.eqb_spec z 0). Qed.

Lemma same_book_set_status s b : same_book b (Book.set_status s b).
Proof. by destruct b. Qed.

Lemma same_request_set_status s x : same_request x (Transaction.set_status s x).
Proof. by destruct x. Qed.

Lemma set_status_id s x : Transaction.id (Transaction.set_status s x) = Transaction.id x.
Proof. done. Qed.

Lemma references_set_status i s x :
  references i (Transaction.set_status s x) = references i x.
Proof. done. Qed.

Lemma references_spec i x :
  references i x = true <->
  Transaction.requestedBookId x = i \/ Transaction.offeredBookId x = Some i.
Proof.
  unfold references. rewrite orb_true_iff, Z.eqb_eq.
  destruct (Transaction.offeredBookId x) as [o|]; [rewrite Z.eqb_eq|].
  - split; (intros [?|?]; [by left|right; congruence]).
  - split; (intros [?|?]; [by left|done]).
Qed.

Lemma select_transaction_Some i ts x :
  select_transaction i ts = Some x -> In x ts /\ Transaction.id x = i.
Proof.
  intros H. apply find_some in H as [H1 H2]. by apply Z.eqb_eq in H2.
Qed.

Lemma select_transaction_None i ts x :
  select_transaction i ts = None -> In x ts -> Transaction.id x <> i.
Proof.
  intros H Hx Hi. eapply find_none in H; [|done]. apply Z.eqb_neq in H. done.
Qed.

Lemma transaction_ids_inj ts x y :
  List.NoDup (map Transaction.id ts) -> In x ts -> In y ts ->
  Transaction.id x = Transaction.id y -> x = y.
Proof.
  induction ts as [|z ts IH]; simpl; [done|].
  intros Hnd Hx Hy Hid. inversion Hnd as [|? ? Hz Hnd']; subst.
  destruct Hx as [->|Hx], Hy as [->|Hy]; auto.
  - destruct Hz. rewrite Hid. by apply in_map.
  - destruct Hz. rewrite <- Hid. by apply in_map.
Qed.

Lemma select_transaction_In ts x :
  List.NoDup (map Transaction.id ts) -> In x ts ->
  select_transaction (Transaction.id x) ts = Some x.
Proof.
  intros Hnd Hx.
  destruct (select_transaction (Transaction.id x) ts) as [y|] eqn:E.
  - apply select_transaction_Some in E as [Hy Hid].
    f_equal. by eapply transaction_ids_inj.
  - by eapply select_transaction_None in E.
Qed.

Lemma update_transaction_status_ids i s ts :
  map Transaction.id (update_transaction_status i s ts) = map Transaction.id ts.
Proof.
  unfold update_transaction_status. rewrite map_map.
  apply map_ext. intros x. by destruct (Transaction.id x =? i).
Qed.

Lemma in_update_transaction_status i s ts y :
  In y (update_transaction_status i s ts) <->
  exists x, In x ts /\
    y = (if Transaction.id x =? i then Transaction.set_status s x else x).
Proof.
  unfold update_transaction_status. rewrite in_map_iff.
  split; intros (x & H1 & H2); exists x; auto.
Qed.

Lemma select_update_transaction_status i j s ts :
  select_transaction j (update_transaction_status i s ts) =
  (fun x => if Transaction.id x =? i then Transaction.set_status s x else x)
    <$> select_transaction j ts.
Proof.
  unfold select_transaction, update_transaction_status.
  induction ts as [|x ts IH]; simpl; [done|].
  destruct (Transaction.id x =? i) eqn:E; simpl;
    destruct (Transaction.id x =? j); simpl; try done; by rewrite ?E.
Qed.

Lemma lookup_update_book_status i j s (bs : gmap Z Book.t) :
  update_book_status i s bs !! j =
  if decide (i = j) then Book.set_status s <$> bs !! j else bs !! j.
Proof.
  unfold update_book_status. rewrite lookup_alter. case_decide; by subst.
Qed.

Lemma createTransactionSchema_Some body input :
  createTransactionSchema body = Some input ->
  parse_TransactionType (CreateTransactionBody.type body)
    = Some (CreateTransactionInput.type input) /\
  CreateTransactionInput.requestedBookId input
    = CreateTransactionBody.requestedBookId body /\
  CreateTransactionInput.ownerId input = CreateTransactionBody.ownerId body /\
  CreateTransactionInput.offeredBookId input
    = CreateTransactionBody.offeredBookId body /\
  0 < CreateTransactionInput.requestedBookId input /\
  match CreateTransactionInput.type input with
  | Exchange => exists o, CreateTransactionInput.offeredBookId input = Some o /\ 0 < o
  | Free => truthy (CreateTransactionInput.offeredBookId input) = None
  end.
Proof.
  unfold createTransactionSchema, createTransaction_refine.
  destruct (parse_TransactionType _) as [ty|]; [|done].
  destruct (0 <? CreateTransactionBody.requestedBookId body) eqn:E1; [|done].
  destruct (0 <? CreateTransactionBody.ownerId body) eqn:E2; [|done].
  apply Z.ltb_lt in E1. simpl.
  destruct (CreateTransactionBody.offeredBookId body) as [o|] eqn:Eo; simpl.
  - destruct (Z.ltb_spec 0 o); [|done]. simpl.
    destruct (Z.eqb_spec o 0); [lia|].
    destruct ty; [done|]. intros [= <-]; simpl. eauto 10.
  - destruct ty; [|done]. intros [= <-]; simpl. eauto 10.
Qed.

Lemma createTransaction_checks_inr db user body userId input :
  createTransaction_checks db user body = inr (userId, input) ->
  truthy user = Some userId /\
  createTransactionSchema body = Some input /\
  (exists book,
     books db !! CreateTransactionInput.requestedBookId input = Some book /\
     Book.status book = "available"%string /\
     Book.ownerId book = CreateTransactionInput.ownerId input /\
     Book.ownerId book <> userId /\
     Book.availabilityType book = CreateTransactionInput.type input) /\
  match CreateTransactionInput.type input with
  | Exchange =>
      exists offered offeredBook,
        truthy (CreateTransactionInput.offeredBookId input) = Some offered /\
        books db !! offered = Some offeredBook /\
        Book.ownerId offeredBook = userId /\
        Book.status offeredBook = "available"%string /\
        offered <> CreateTransactionInput.requestedBookId input
  | Free => True
  end /\
  select_pending_request userId (CreateTransactionInput.requestedBookId input)
    (transactions db) = None.
Proof.
  unfold createTransaction_checks, require, reject_if.
  destruct (truthy user) as [u|]; [|done].
  destruct (createTransactionSchema body) as [inp|]; [|done].
  destruct (books db !! _) as [book|] eqn:Ebook; [|done].
  destruct (String.eqb_spec (Book.status book) "available"); [|done]. simpl.
  destruct (Z.eqb_spec (Book.ownerId book) (CreateTransactionInput.ownerId inp));
    [|done]. simpl.
  destruct (CreateTransactionInput.type inp) eqn:Ety.
  - destruct (Z.eqb_spec (Book.ownerId book) u); [done|].
    destruct (Book.availabilityType book) eqn:Eav; [|done]. simpl.
    destruct (select_pending_request _ _ _) eqn:Esel; [done|].
    intros [= <- <-]. rewrite Ety. eauto 15.
  - destruct (truthy (CreateTransactionInput.offeredBookId inp)) as [o|] eqn:Eo;
      [|done].
    destruct (books db !! o) as [ob|] eqn:Eob; [|done].
    destruct (Z.eqb_spec (Book.ownerId ob) u); [|done]. simpl.
    destruct (String.eqb_spec (Book.status ob) "available"); [|done]. simpl.
    destruct (Z.eqb_spec o (CreateTransactionInput.requestedBookId inp)); [done|].
    destruct (Z.eqb_spec (Book.ownerId book) u); [done|].
    destruct (Book.availabilityType book) eqn:Eav; [done|]. simpl.
    destruct (select_pending_request _ _ _) eqn:Esel; [done|].
    intros [= <- <-]. rewrite Ety. eauto 20.
Qed.

Lemma select_transaction_with_book_Some db i x b :
  select_transaction_with_book db i = Some (x, b) <->
  select_transaction i (transactions db) = Some x /\
  books db !! Transaction.requestedBookId x = Some b.
Proof.
  unfold select_transaction_with_book.
  destruct (select_transaction i (transactions db)) as [y|];
    [|split; [done|by intros [? _]]].
  destruct (books db !! Transaction.requestedBookId y) eqn:E.
  - split; [by intros [= <- <-]|]. intros [[= <-] Hb]. congruence.
  - split; [done|]. intros [[= <-] Hb]. congruence.
Qed.

Lemma updateTransaction_checks_inr db user id body transactionId x status :
  updateTransaction_checks db user id body = inr (transactionId, x, status) ->
  exists userId book,
    truthy user = Some userId /\ truthy id = Some transactionId /\
    updateTransactionSchema transactionId body = Some status /\
    select_transaction transactionId (transactions db) = Some x /\
    books db !! Transaction.requestedBookId x = Some book /\
    Book.ownerId book = userId /\
    Transaction.status x = pending /\
    (status = approved \/ status = rejected).
Proof.
  unfold updateTransaction_checks, require, reject_if.
  destruct (truthy user) as [u|] eqn:Eu; [|done].
  destruct (truthy id) as [i|] eqn:Ei; [|done].
  destruct (updateTransactionSchema i body) as [s|] eqn:Es; [|done].
  destruct (select_transaction_with_book db i) as [[y b]|] eqn:E; [|done].
  apply select_transaction_with_book_Some in E as [E1 E2].
  destruct (Z.eqb_spec (Book.ownerId b) u); [|done]. simpl.
  destruct (Transaction.status y) eqn:Est; try done. simpl.
  destruct s; try done; intros [= <- <- <-]; exists u, b; eauto 10.
Qed.

Lemma update_book_status_is_Some i j s (bs : gmap Z Book.t) :
  is_Some (update_book_status i s bs !! j) <-> is_Some (bs !! j).
Proof.
  rewrite lookup_update_book_status. case_decide; [|done]. apply fmap_is_Some.
Qed.


(** ** The cascade *)

Lemma fold_reject_other_idle transactionId others acc :
  (forall o, In o others -> is_other_pending transactionId o = false) ->
  fold_left (reject_other transactionId) others acc = acc.
Proof.
  revert acc. induction others as [|o others IH]; intros acc H; simpl; [done|].
  unfold reject_other at 2. fold (is_other_pending transactionId o).
  rewrite (H o) by (by left). apply IH. intros o' Ho'. apply H. by right.
Qed.

Lemma fold_reject_other_transactions transactionId others ts bs :
  fst (fold_left (reject_other transactionId) others (ts, bs)) =
  map (fun x => if rejected_by transactionId others x
                then Transaction.set_status rejected x else x) ts.
Proof.
  revert ts bs. induction others as [|o others IH]; intros ts bs; simpl.
  - by rewrite map_id.
  - unfold reject_other at 2. fold (is_other_pending transactionId o).
    destruct (is_other_pending transactionId o) eqn:E; simpl.
    + rewrite IH. unfold update_transaction_status. rewrite map_map.
      apply map_ext. intros x. unfold rejected_by.
      rewrite (Z.eqb_sym (Transaction.id o) (Transaction.id x)).
      destruct (Z.eqb_spec (Transaction.id x) (Transaction.id o)) as [Heq|Hne]; simpl.
      * by destruct (existsb _ _).
      * done.
    + destruct (fold_left _ _ _) eqn:Ef. rewrite <- (IH ts bs), Ef. done.
Qed.

Lemma fold_reject_other_books transactionId others ts (bs : gmap Z Book.t) j :
  snd (fold_left (reject_other transactionId) others (ts, bs)) !! j =
  if released_by transactionId others j
  then Book.set_status "available" <$> bs !! j
  else bs !! j.
Proof.
  revert ts bs. induction others as [|o others IH]; intros ts bs; simpl; [done|].
  unfold reject_other at 2. fold (is_other_pending transactionId o).
  destruct (is_other_pending transactionId o) eqn:E; simpl; [|apply IH].
  rewrite IH. destruct (truthy (Transaction.offeredBookId o)) as [k|] eqn:Ek.
  - rewrite lookup_update_book_status.
    destruct (decide (k = j)) as [->|Hne].
    + rewrite bool_decide_true by done. simpl.
      destruct (released_by _ _ _); [|done].
      by destruct (bs !! j).
    + rewrite bool_decide_false by congruence. done.
  - rewrite bool_decide_false by done. done.
Qed.

(** ** [updateTransaction] on any database *)

Lemma select_transaction_map f j ts :
  (forall x, Transaction.id (f x) = Transaction.id x) ->
  select_transaction j (map f ts) = f <$> select_transaction j ts.
Proof.
  intros Hf. unfold select_transaction.
  induction ts as [|x ts IH]; simpl; [done|].
  rewrite Hf. by destruct (Transaction.id x =? j).
Qed.

Lemma updateTransaction_checks_pass db u tid body s x book :
  u <> 0 -> 0 < tid ->
  parse_TransactionStatus (UpdateTransactionBody.status body) = Some s ->
  select_transaction tid (transactions db) = Some x ->
  books db !! Transaction.requestedBookId x = Some book ->
  Book.ownerId book = u ->
  Transaction.status x = pending ->
  is_resolution s = true ->
  updateTransaction_checks db (Some u) (Some tid) body = inr (tid, x, s).
Proof.
  intros Hu Htid Hs Hsel Hbook Hown Hp Hres.
  unfold updateTransaction_checks, updateTransactionSchema,
    select_transaction_with_book.
  rewrite !truthy_nonzero by lia. simpl.
  destruct (Z.ltb_spec 0 tid); [|lia].
  rewrite Hs, Hsel, Hbook. simpl.
  rewrite Hown, Z.eqb_refl, Hp, Hres. done.
Qed.

Lemma rejected_by_target tid others y :
  Transaction.id y = tid -> rejected_by tid others y = false.
Proof.
  intros <-. unfold rejected_by, is_other_pending.
  induction others as [|o others IH]; simpl; [done|]. rewrite IH.
  destruct (Transaction.id o =? Transaction.id y); simpl; [done|].
  by rewrite !andb_false_r.
Qed.

Lemma rejected_by_true tid others y :
  rejected_by tid others y = true <->
  exists o, In o others /\ Transaction.id o <> tid /\
            Transaction.status o = pending /\
            Transaction.id o = Transaction.id y.
Proof.
  unfold rejected_by, is_other_pending. rewrite existsb_exists.
  split; intros (o & Ho & H); exists o; (split; [done|]).
  - apply andb_true_iff in H as [[H1 H2]%andb_true_iff H3].
    apply negb_true_iff, Z.eqb_neq in H1. apply Z.eqb_eq in H3.
    by destruct (Transaction.status o).
  - destruct H as (H1 & H2 & H3). rewrite H2, H3, Z.eqb_refl.
    apply Z.eqb_neq in H1. rewrite <- H3, H1. done.
Qed.

Lemma released_by_true tid others j :
  released_by tid others j = true <->
  exists o, In o others /\ Transaction.id o <> tid /\
            Transaction.status o = pending /\
            truthy (Transaction.offeredBookId o) = Some j.
Proof.
  unfold released_by, is_other_pending. rewrite existsb_exists.
  split; intros (o & Ho & H); exists o; (split; [done|]).
  - apply andb_true_iff in H as [[H1 H2]%andb_true_iff H3].
    apply negb_true_iff, Z.eqb_neq in H1. apply bool_decide_eq_true in H3.
    by destruct (Transaction.status o).
  - destruct H as (H1 & H2 & H3). rewrite H2.
    apply Z.eqb_neq in H1. rewrite H1. simpl. by apply bool_decide_eq_true.
Qed.

(** The database after an approval, in closed form. *)
Lemma updateTransaction_approved db user id body tid x :
  updateTransaction_checks db user id body = inr (tid, x, approved) ->
  let ts1 := update_transaction_status tid approved (transactions db) in
  let others := select_by_requestedBook (Transaction.requestedBookId x) ts1 in
  let db' := fst (updateTransaction db user id body) in
  transactions db' =
    map (fun y => if rejected_by tid others y
                  then Transaction.set_status rejected y else y) ts1 /\
  (forall j, books db' !! j =
     if decide (Transaction.requestedBookId x = j)
     then Book.set_status "approved" <$> books db !! j
     else if released_by tid others j
          then Book.set_status "available" <$> books db !! j
          else books db !! j) /\
  snd (updateTransaction db user id body) =
    success 200 "Transaction approved successfully" (select_transaction tid ts1).
Proof.
  intros E ts1 others db'. subst db'. unfold updateTransaction. rewrite E.
  fold ts1. fold others.
  pose proof (fold_reject_other_transactions tid others ts1 (books db)) as Hts.
  pose proof (fold_reject_other_books tid others ts1 (books db)) as Hbs.
  destruct (fold_left _ _ _) as [ts2 bs2]. simpl in *.
  split; [done|]. split; [|done].
  intros j. rewrite lookup_update_book_status, Hbs.
  case_decide; [|done]. destruct (released_by _ _ _); [|done].
  by destruct (books db !! j).
Qed.

(** The database after a rejection. *)
Lemma updateTransaction_rejected db user id body tid x :
  updateTransaction_checks db user id body = inr (tid, x, rejected) ->
  let ts1 := update_transaction_status tid rejected (transactions db) in
  updateTransaction db user id body =
    (mkDb (update_book_status (Transaction.requestedBookId x) "available"
             match truthy (Transaction.offeredBookId x) with
             | Some offered => update_book_status offered "available" (books db)
             | None => books db
             end)
          ts1 (books_seq db) (transactions_seq db),
     success 200 "Transaction rejected successfully" (select_transaction tid ts1)).
Proof. intros E. unfold updateTransaction. rewrite E. done. Qed.
(** ** The invariant *)

Lemma initial_consistent db : initial db -> consistent db.
Proof.
  intros (Hts & Hseq & Hbs). split; rewrite ?Hts; simpl; try done.
  - constructor.
  - intros i [b Hb]. by apply Hbs in Hb as [_ ?].
Qed.

(** Every handler keeps the invariant; [db] is the database before the
    request. *)
Section Preservation.
Variable is_url : string -> bool.
Variable db : Db.
Hypothesis Hdb : consistent db.

Lemma consistent_createBook user body :
  consistent (fst (createBook is_url db user body)).
Proof.
  unfold createBook.
  destruct (match require (truthy user) _ with inl r => _ | inr u => _ end)
    as [r|d]; [done|]. simpl.
  assert (Hfresh : books db !! books_seq db = None).
  { destruct (books db !! books_seq db) eqn:E; [|done].
    assert (books_seq db < books_seq db) by (by apply (book_ids_drawn db Hdb)). lia. }
  assert (Hold : forall i b, books db !! i = Some b ->
            <[books_seq db := new_book d]> (books db) !! i = Some b).
  { intros i b Hb. rewrite lookup_insert_ne; [done|]. intros <-. congruence. }
  pose proof Hdb as [Hseq Hid Hnd Hbid Hreq Hfk Hoff Hpb Hpu Hab Hau]. split; simpl; try done.
  - intros i. rewrite lookup_insert. case_decide; [lia|].
    intros Hi. apply Hbid in Hi. lia.
  - intros x Hx. destruct (Hfk x Hx) as [b Hb]. eauto.
  - intros x i Hx Hp Hr. destruct (Hpb x i Hx Hp Hr) as (b & Hb & Hs). eauto.
  - intros x Hx Ha. destruct (Hab x Hx Ha) as (b & Hb & Hs). eauto.
Qed.

Lemma consistent_updateBook user id body :
  consistent (fst (updateBook is_url db user id body)).
Proof.
  unfold updateBook.
  destruct (match require (truthy user) _ with inl r => _ | inr u => _ end)
    as [r|[bookId patch]]; [done|]. simpl.
  assert (Hold : forall i b, books db !! i = Some b ->
            exists b', alter (set_book patch) bookId (books db) !! i = Some b' /\
                       Book.status b' = Book.status b).
  { intros i b Hb. rewrite lookup_alter. case_decide; subst; rewrite Hb; simpl; eauto. }
  pose proof Hdb as [Hseq Hid Hnd Hbid Hreq Hfk Hoff Hpb Hpu Hab Hau]. split; simpl; try done.
  - intros i. rewrite lookup_alter. case_decide; subst; [rewrite fmap_is_Some|]; auto.
  - intros x Hx. destruct (Hfk x Hx) as [b Hb].
    destruct (Hold _ b Hb) as (b' & ? & ?). eauto.
  - intros x i Hx Hp Hr. destruct (Hpb x i Hx Hp Hr) as (b & Hb & Hs).
    destruct (Hold i b Hb) as (b' & ? & ?). exists b'. split; congruence.
  - intros x Hx Ha. destruct (Hab x Hx Ha) as (b & Hb & Hs).
    destruct (Hold _ b Hb) as (b' & ? & ?). exists b'. split; congruence.
Qed.

Lemma consistent_deleteBook user id :
  consistent (fst (deleteBook db user id)).
Proof.
  unfold deleteBook.
  destruct (match require (truthy user) _ with inl r => _ | inr u => _ end)
    as [r|bookId] eqn:E; [done|]. simpl.
  assert (Hno : forall x, In x (transactions db) -> references bookId x = false).
  { revert E. unfold require, reject_if.
    destruct (truthy user); [|done]. destruct (truthy id); [|done].
    destruct (books db !! _); [|done]. destruct (negb _); [done|].
    destruct (existsb _ _) eqn:Ex; [done|]. intros [= <-].
    intros x Hx. destruct (references z0 x) eqn:Er; [|done].
    assert (existsb (references z0) (transactions db) = true); [|congruence].
    apply existsb_exists. eauto. }
  pose proof Hdb as [Hseq Hid Hnd Hbid Hreq Hfk Hoff Hpb Hpu Hab Hau]. split; simpl; try done.
  - intros i Hi. apply Hbid.
    destruct (decide (bookId = i)) as [->|];
      [by rewrite lookup_delete_eq in Hi; destruct Hi|by rewrite lookup_delete_ne in Hi].
  - intros x Hx. rewrite lookup_delete_ne; [by apply Hfk|].
    intros Heq. specialize (Hno x Hx). unfold references in Hno.
    rewrite Heq, Z.eqb_refl in Hno. done.
  - intros x i Hx Hp Hr. destruct (Hpb x i Hx Hp Hr) as (b & Hb & Hs).
    exists b. split; [|done]. rewrite lookup_delete_ne; [done|].
    intros ->. rewrite Hno in Hr; done.
  - intros x Hx Ha. destruct (Hab x Hx Ha) as (b & Hb & Hs).
    exists b. split; [|done]. rewrite lookup_delete_ne; [done|].
    intros Heq. specialize (Hno x Hx). unfold references in Hno.
    rewrite Heq, Z.eqb_refl in Hno. done.
Qed.


Lemma available_not_referenced i b :
  books db !! i = Some b -> Book.status b = "available"%string ->
  forall x, In x (transactions db) -> references i x = true ->
    Transaction.status x <> pending.
Proof.
  intros Hb Hs x Hx Hr Hp.
  destruct (pending_book db Hdb x i Hx Hp Hr) as (b' & Hb' & Hs').
  rewrite Hb in Hb'. injection Hb' as <-. rewrite Hs in Hs'. done.
Qed.

Lemma consistent_createTransaction user body :
  consistent (fst (createTransaction db user body)).
Proof.
  unfold createTransaction.
  destruct (createTransaction_checks db user body) as [r|[u input]] eqn:E; [done|].
  apply createTransaction_checks_inr in E
    as (Hu & Hschema & (book & Hbook & Hav & Hown & Hnown & Hty) & Hex & Hdup).
  apply truthy_Some in Hu as [_ Hu].
  apply createTransactionSchema_Some in Hschema as (_ & _ & _ & _ & _ & Hoff').
  set (new := new_transaction db u input).
  set (bs2 := match CreateTransactionInput.type input with
              | Free => _ | Exchange => _ end).
  (* the books that the request touches were available, the others keep
     their row *)
  assert (Hnew : forall i, references i new = true ->
            exists b, books db !! i = Some b /\
                      Book.status b = "available"%string /\
                      bs2 !! i = Some (Book.set_status "pending" b)).
  { intros i Hi. apply references_spec in Hi. subst bs2 new. simpl in Hi.
    destruct (CreateTransactionInput.type input).
    - rewrite Hoff' in *. destruct Hi as [<-|]; [|done].
      exists book. rewrite lookup_update_book_status, decide_True, Hbook; done.
    - destruct Hex as (o & ob & Ho & Hob & _ & Hoav & Hne). rewrite Ho in *.
      destruct Hi as [<-|[= <-]].
      + exists book.
        rewrite !lookup_update_book_status, decide_False, decide_True, Hbook; done.
      + exists ob.
        rewrite !lookup_update_book_status, decide_True, decide_False, Hob; done. }
  assert (Hold : forall i b, books db !! i = Some b ->
            bs2 !! i = Some b \/
            (Book.status b = "available"%string /\
             bs2 !! i = Some (Book.set_status "pending" b))).
  { intros i b Hb. subst bs2.
    destruct (decide (CreateTransactionInput.requestedBookId input = i)) as [<-|HR].
    - right. rewrite Hbook in Hb. injection Hb as <-. split; [done|].
      destruct (Hnew (CreateTransactionInput.requestedBookId input)) as (b' & Hb' & _ & ->); [|congruence].
      apply references_spec. by left.
    - destruct (CreateTransactionInput.type input);
        [left; by rewrite lookup_update_book_status, decide_False|].
      destruct Hex as (o & ob & Ho & Hob & _ & Hoav & Hne). rewrite Ho.
      rewrite !lookup_update_book_status, (decide_False (P := CreateTransactionInput.requestedBookId input = i)), Hb by done.
      case_decide; subst; simpl; [right|by left].
      rewrite Hob in Hb. by injection Hb as <-. }
  pose proof Hdb as [Hseq Hid Hnd Hbid Hreq Hfk Hoff Hpb Hpu Hab Hau].
  split; simpl.
  - lia.
  - intros x [Hx| [<- | []]]%in_app_or; [apply Hid in Hx; lia|simpl; lia].
  - rewrite map_app. apply List.NoDup_app; [done|repeat constructor; by intros []|].
    intros i Hi [Hn|[]]. apply in_map_iff in Hi as (x & Hx & Hin).
    apply Hid in Hin. subst new. simpl in Hn. lia.
  - intros i Hi. apply Hbid. subst bs2.
    destruct (CreateTransactionInput.type input), (truthy _);
      by repeat apply update_book_status_is_Some in Hi.
  - intros x [Hx| [<- | []]]%in_app_or; [by apply Hreq|done].
  - intros x [Hx| [<- | []]]%in_app_or.
    + destruct (Hfk x Hx) as [b Hb]. destruct (Hold _ b Hb) as [?|[_ ?]]; eauto.
    + destruct (Hold _ book Hbook) as [?|[_ ?]]; eauto.
  - intros x [Hx| [<- | []]]%in_app_or; [by apply Hoff|]. simpl.
    destruct (CreateTransactionInput.type input); [by rewrite Hoff'|].
    destruct Hex as (o & ob & -> & _ & _ & _ & Hne). congruence.
  - intros x i [Hx| [<- | []]]%in_app_or Hp Hr.
    + destruct (Hpb x i Hx Hp Hr) as (b & Hb & Hs).
      destruct (Hold i b Hb) as [?|[? ?]]; eauto.
    + destruct (Hnew i Hr) as (b & _ & _ & ->). eauto.
  - intros x y i [Hx| [<- | []]]%in_app_or [Hy| [<- | []]]%in_app_or Hp Hq Hr Hr'.
    + eauto.
    + destruct (Hnew i Hr') as (b & Hb & Hs & _).
      by destruct (available_not_referenced i b Hb Hs x Hx Hr).
    + destruct (Hnew i Hr) as (b & Hb & Hs & _).
      by destruct (available_not_referenced i b Hb Hs y Hy Hr').
    + done.
  - intros x [Hx| [<- | []]]%in_app_or Ha; [|done].
    destruct (Hab x Hx Ha) as (b & Hb & Hs).
    destruct (Hold _ b Hb) as [?|[Hav' _]]; [eauto|]. rewrite Hs in Hav'. done.
  - intros x y [Hx| [<- | []]]%in_app_or [Hy| [<- | []]]%in_app_or; eauto; done.
Qed.

Lemma pending_is_unique_reference x y i :
  In x (transactions db) -> In y (transactions db) ->
  Transaction.status x = pending -> Transaction.status y = pending ->
  references i x = true -> references i y = true ->
  Transaction.id x = Transaction.id y.
Proof. intros. f_equal. by eapply (pending_unique db Hdb). Qed.

(** In a consistent database the target of an approval has no pending
    sibling, and the loop writes nothing. *)
Lemma no_other_pending transactionId x s o :
  select_transaction transactionId (transactions db) = Some x ->
  Transaction.status x = pending ->
  In o (select_by_requestedBook (Transaction.requestedBookId x)
          (update_transaction_status transactionId s (transactions db))) ->
  is_other_pending transactionId o = false.
Proof.
  intros Hsel Hp Ho. apply select_transaction_Some in Hsel as [Hx Hid].
  apply filter_In in Ho as [Ho Hreq]. apply Z.eqb_eq in Hreq.
  apply in_update_transaction_status in Ho as (y & Hy & ->).
  unfold is_other_pending.
  destruct (Z.eqb_spec (Transaction.id y) transactionId) as [Heq|Hne].
  - simpl. by rewrite Heq, Z.eqb_refl.
  - destruct (Z.eqb_spec (Transaction.id y) transactionId); [done|]. simpl.
    destruct (Transaction.status y) eqn:Ey; try done.
    destruct Hne. rewrite <- Hid.
    apply (pending_is_unique_reference y x (Transaction.requestedBookId x));
      try done; apply references_spec; auto.
Qed.

Lemma updateTransaction_consistent_inr user id body transactionId x s :
  updateTransaction_checks db user id body = inr (transactionId, x, s) ->
  fst (updateTransaction db user id body) =
  mkDb (update_book_status (Transaction.requestedBookId x)
          (match s with approved => "approved" | _ => "available" end)
          (match s, truthy (Transaction.offeredBookId x) with
           | approved, _ | _, None => books db
           | _, Some offered => update_book_status offered "available" (books db)
           end))
       (update_transaction_status transactionId s (transactions db))
       (books_seq db) (transactions_seq db).
Proof.
  intros E. unfold updateTransaction. rewrite E.
  apply updateTransaction_checks_inr in E
    as (u & b & _ & _ & _ & Hsel & _ & _ & Hp & Hs).
  destruct Hs as [-> | ->]; simpl.
  - rewrite fold_reject_other_idle; [done|].
    intros o Ho. by eapply no_other_pending.
  - by destruct (truthy _).
Qed.

Lemma consistent_updateTransaction user id body :
  consistent (fst (updateTransaction db user id body)).
Proof.
  destruct (updateTransaction_checks db user id body)
    as [r|[[transactionId x] s]] eqn:E.
  { unfold updateTransaction. by rewrite E. }
  rewrite (updateTransaction_consistent_inr _ _ _ _ _ _ E).
  apply updateTransaction_checks_inr in E
    as (u & book & _ & _ & _ & Hsel & Hbook & _ & Hp & Hs).
  pose proof Hsel as [Hx Hidx]%select_transaction_Some.
  pose proof Hdb as [Hseq Hid Hnd Hbid Hreq Hfk Hoff Hpb Hpu Hab Hau].
  set (ts' := update_transaction_status transactionId s (transactions db)).
  set (bs' := update_book_status _ _ _).
  (* the rows of the new table *)
  assert (Hrows : forall y', In y' ts' ->
            y' = Transaction.set_status s x \/
            (In y' (transactions db) /\ y' <> x)).
  { intros y' (y & Hy & ->)%in_update_transaction_status.
    destruct (Z.eqb_spec (Transaction.id y) transactionId) as [Heq|Hne].
    - left. f_equal. eapply transaction_ids_inj; eauto. congruence.
    - right. split; [done|]. congruence. }
  (* a book that another pending request refers to keeps its row *)
  assert (Hkeep : forall y i, In y (transactions db) -> y <> x ->
            Transaction.status y = pending -> references i y = true ->
            bs' !! i = books db !! i).
  { intros y i Hy Hne Hpy Hr.
    assert (references i x = false) as Hrx.
    { destruct (references i x) eqn:Er; [|done]. destruct Hne. eauto. }
    apply not_true_iff_false in Hrx. rewrite references_spec in Hrx.
    subst bs'. rewrite lookup_update_book_status, decide_False by tauto.
    destruct s, (truthy (Transaction.offeredBookId x)) as [o|] eqn:Eo; try done;
      apply truthy_Some in Eo as [Eo _];
      rewrite lookup_update_book_status, decide_False; try done;
      intros ->; tauto. }
  (* every book keeps its row or takes the new status *)
  assert (Hbooks : forall i b, books db !! i = Some b ->
            bs' !! i = Some b \/
            (references i x = true /\
             exists s', bs' !! i = Some (Book.set_status s' b) /\
                        (s = approved -> s' = "approved"%string))).
  { intros i b Hb. subst bs'. rewrite lookup_update_book_status.
    case_decide as Hi.
    - right. split; [apply references_spec; by left|].
      destruct Hs as [-> | ->]; simpl.
      + rewrite Hb. simpl. eauto.
      + destruct (truthy (Transaction.offeredBookId x)) as [o|];
          rewrite ?lookup_update_book_status; try case_decide;
          rewrite Hb; simpl; eexists; (split; [reflexivity|done]).
    - destruct Hs as [-> | ->]; simpl; [by left|].
      destruct (truthy (Transaction.offeredBookId x)) as [o|] eqn:Eo; [|by left].
      rewrite lookup_update_book_status. case_decide as Ho; [|by left].
      right. apply truthy_Some in Eo as [Eo _]. split.
      + apply references_spec. subst. by right.
      + rewrite Hb. simpl. eexists. split; [reflexivity|done]. }
  split; simpl; fold ts'; fold bs'.
  - done.
  - intros y' (y & Hy & ->)%in_update_transaction_status.
    destruct (_ =? _); simpl; by apply Hid.
  - subst ts'. by rewrite update_transaction_status_ids.
  - intros i Hi. apply Hbid. subst bs'. apply update_book_status_is_Some in Hi.
    destruct Hs as [-> | ->]; simpl in Hi; [done|].
    destruct (truthy _); [by apply update_book_status_is_Some in Hi|done].
  - intros y' (y & Hy & ->)%in_update_transaction_status.
    destruct (_ =? _); simpl; by apply Hreq.
  - intros y' (y & Hy & ->)%in_update_transaction_status.
    destruct (Hfk y Hy) as [b Hb].
    assert (is_Some (bs' !! Transaction.requestedBookId y)) as Hsome.
    { destruct (Hbooks _ b Hb) as [?|(_ & s' & ? & _)]; eauto. }
    by destruct (_ =? _).
  - intros y' (y & Hy & ->)%in_update_transaction_status.
    destruct (_ =? _); simpl; by apply Hoff.
  - intros y' i Hy' Hpy Hr. destruct (Hrows y' Hy') as [->|[Hy Hne]].
    { simpl in Hpy. destruct Hs; congruence. }
    rewrite (Hkeep y' i) by done. eauto.
  - intros y' z' i Hy' Hz' Hpy Hpz Hry Hrz.
    destruct (Hrows y' Hy') as [->|[Hy _]];
      [simpl in Hpy; destruct Hs; congruence|].
    destruct (Hrows z' Hz') as [->|[Hz _]];
      [simpl in Hpz; destruct Hs; congruence|].
    eauto.
  - intros y' Hy' Hay. destruct (Hrows y' Hy') as [->|[Hy Hne]].
    + simpl in *. subst s. subst bs'. simpl.
      rewrite lookup_update_book_status, decide_True, Hbook by done.
      simpl. eauto.
    + destruct (Hab y' Hy Hay) as (b & Hb & Hsb).
      destruct (Hbooks _ b Hb) as [?|(Hr & s' & Hb' & Hs')]; [eauto|].
      destruct (Hpb x _ Hx Hp Hr) as (b0 & Hb0 & Hsb0).
      rewrite Hb in Hb0. injection Hb0 as <-. rewrite Hsb in Hsb0. done.
  - intros y' z' Hy' Hz' Hay Haz Heq.
    assert (Hfresh : forall w, In w (transactions db) ->
              Transaction.status w = approved ->
              Transaction.requestedBookId w <> Transaction.requestedBookId x).
    { intros w Hw Haw Heqw. destruct (Hab w Hw Haw) as (b & Hb & Hsb).
      destruct (Hpb x (Transaction.requestedBookId x) Hx Hp) as (b0 & Hb0 & Hsb0).
      { apply references_spec. by left. }
      rewrite Heqw, Hb0 in Hb. injection Hb as <-. rewrite Hsb0 in Hsb. done. }
    destruct (Hrows y' Hy') as [->|[Hy _]], (Hrows z' Hz') as [->|[Hz _]];
      simpl in *; eauto.
    + by destruct (Hfresh z' Hz Haz).
    + by destruct (Hfresh y' Hy Hay).
Qed.

End Preservation.

Lemma handle_consistent is_url db r :
  consistent db -> consistent (handle is_url db r).
Proof.
  intros H. destruct r; simpl.
  - by apply consistent_createBook.
  - by apply consistent_updateBook.
  - by apply consistent_deleteBook.
  - by apply consistent_createTransaction.
  - by apply consistent_updateTransaction.
Qed.

Lemma reachable_consistent is_url db : reachable is_url db -> consistent db.
Proof.
  induction 1 as [db Hinit|db r _ IH].
  - by apply initial_consistent.
  - by apply handle_consistent.
Qed.

(** ** Rows that left [pending] *)

Lemma resolved_row_stays is_url db r x :
  consistent db -> In x (transactions db) -> Transaction.status x <> pending ->
  In x (transactions (handle is_url db r)).
Proof.
  intros Hdb Hx Hnp. destruct r as [u b|u i b|u i|u b|u i b]; simpl.
  - unfold createBook. by destruct (match require _ _ with inl _ => _ | inr _ => _ end).
  - unfold updateBook.
    by destruct (match require _ _ with inl _ => _ | inr _ => _ end) as [|[]].
  - unfold deleteBook. by destruct (match require _ _ with inl _ => _ | inr _ => _ end).
  - unfold createTransaction.
    destruct (createTransaction_checks db u b) as [|[]]; [done|]. simpl.
    apply in_or_app. by left.
  - destruct (updateTransaction_checks db u i b) as [|[[tid y] s]] eqn:E.
    { unfold updateTransaction. by rewrite E. }
    rewrite (updateTransaction_consistent_inr db Hdb _ _ _ _ _ _ E). simpl.
    apply updateTransaction_checks_inr in E
      as (_ & _ & _ & _ & _ & Hsel & _ & _ & Hp & _).
    apply select_transaction_Some in Hsel as [Hy <-].
    apply in_update_transaction_status. exists x. split; [done|].
    destruct (Z.eqb_spec (Transaction.id x) (Transaction.id y)) as [Heq|]; [|done].
    assert (x = y) as -> by (eapply transaction_ids_inj; eauto; apply Hdb).
    done.
Qed.

(** ** What keeps a book pending *)

(** The tables after a request was created. *)
Lemma createTransaction_inr db user body u input :
  createTransaction_checks db user body = inr (u, input) ->
  let new := new_transaction db u input in
  transactions (fst (createTransaction db user body)) = transactions db ++ [new] /\
  forall i, books (fst (createTransaction db user body)) !! i =
            if references i new
            then Book.set_status "pending" <$> books db !! i
            else books db !! i.
Proof.
  intros E new. unfold createTransaction. rewrite E. simpl. split; [done|].
  apply createTransaction_checks_inr in E as (_ & Hs & _ & Hex & _).
  apply createTransactionSchema_Some in Hs as (_ & _ & _ & _ & _ & Hoff).
  intros i. subst new. unfold references, new_transaction. simpl.
  destruct (CreateTransactionInput.type input).
  - rewrite Hoff, orb_false_r, lookup_update_book_status.
    destruct (Z.eqb_spec (CreateTransactionInput.requestedBookId input) i);
      by case_decide.
  - destruct Hex as (o & _ & -> & _). rewrite !lookup_update_book_status.
    destruct (Z.eqb_spec (CreateTransactionInput.requestedBookId input) i),
      (Z.eqb_spec o i); repeat case_decide; try done; simpl.
    by destruct (books db !! i).
Qed.

Lemma handle_pending_explained is_url db r :
  consistent db -> pending_explained db ->
  pending_explained (handle is_url db r).
Proof.
  intros Hdb [Hnz Hexp].
  (* an explanation survives when the rows only grow or keep their status *)
  assert (Hkeep : forall (ts' : list Transaction.t) i,
            (forall y, In y (transactions db) -> In y ts') ->
            pending_reference db i \/ offered_by_approved db i ->
            (exists x, In x ts' /\ Transaction.status x = pending /\
                       references i x = true) \/
            (exists x, In x ts' /\ Transaction.status x = approved /\
                       Transaction.offeredBookId x = Some i)).
  { intros ts' i Hsub [(x & Hx & ?)|(x & Hx & ?)]; [left|right]; exists x; auto. }
  destruct r as [u bd|u j bd|u j|u bd|u j bd]; simpl.
  - unfold createBook.
    destruct (match require (truthy u) _ with inl _ => _ | inr _ => _ end);
      [done|]. split; [done|]. simpl. intros i b Hb Hs.
    apply lookup_insert_Some in Hb as [[_ <-]|[_ Hb]]; [done|].
    apply (Hkeep _ i (fun y H => H)). eauto.
  - unfold updateBook.
    destruct (match require (truthy u) _ with inl _ => _ | inr _ => _ end)
      as [|[bookId patch]]; [done|]. split; [done|]. simpl. intros i b Hb Hs.
    rewrite lookup_alter in Hb. apply (Hkeep _ i (fun y H => H)).
    case_decide; subst; [|eauto].
    destruct (books db !! i) as [b0|] eqn:E; [|done]. injection Hb as <-. eauto.
  - unfold deleteBook.
    destruct (match require (truthy u) _ with inl _ => _ | inr _ => _ end);
      [done|]. split; [done|]. simpl. intros i b Hb Hs.
    apply lookup_delete_Some in Hb as [_ Hb].
    apply (Hkeep _ i (fun y H => H)). eauto.
  - destruct (createTransaction_checks db u bd) as [|[v input]] eqn:E.
    { unfold createTransaction. by rewrite E. }
    destruct (createTransaction_inr db u bd v input E) as [Hts Hbs].
    split.
    + intros x. rewrite Hts. intros [Hx|[<-|[]]]%in_app_or; [by apply Hnz|].
      simpl. destruct (truthy _) as [o|] eqn:Eo; [|done].
      apply truthy_Some in Eo as [_ Ho]. congruence.
    + intros i b. rewrite Hbs. intros Hb Hs.
      unfold pending_reference, offered_by_approved. rewrite Hts.
      destruct (references i (new_transaction db v input)) eqn:Er.
      * left. exists (new_transaction db v input).
        split; [apply in_or_app; right; by left|done].
      * apply Hkeep; [intros y Hy; apply in_or_app; by left|eauto].
  - destruct (updateTransaction_checks db u j bd) as [|[[tid x] s]] eqn:E.
    { unfold updateTransaction. by rewrite E. }
    rewrite (updateTransaction_consistent_inr db Hdb _ _ _ _ _ _ E).
    apply updateTransaction_checks_inr in E
      as (_ & _ & _ & _ & _ & Hsel & _ & _ & Hp & Hs).
    pose proof Hsel as [Hx Hid]%select_transaction_Some.
    assert (Hother : forall y, In y (transactions db) -> y <> x ->
              In y (update_transaction_status tid s (transactions db))).
    { intros y Hy Hne. apply in_update_transaction_status. exists y.
      split; [done|].
      destruct (Z.eqb_spec (Transaction.id y) tid); [|done].
      destruct Hne. eapply transaction_ids_inj; eauto; [apply Hdb|congruence]. }
    assert (Hself : In (Transaction.set_status s x)
                       (update_transaction_status tid s (transactions db))).
    { apply in_update_transaction_status. exists x.
      by rewrite Hid, Z.eqb_refl. }
    split; simpl.
    { intros y' (y & Hy & ->)%in_update_transaction_status.
      destruct (_ =? _); simpl; by apply Hnz. }
    intros i b' Hb' Hs'. rewrite lookup_update_book_status in Hb'.
    case_decide as Hi.
    { (* the requested book is no longer pending *)
      destruct Hs as [-> | ->]; simpl in Hb';
        [|destruct (truthy _); rewrite ?lookup_update_book_status in Hb';
          try case_decide];
        destruct (books db !! i); simplify_eq/=. }
    assert (Hold : exists b, books db !! i = Some b /\
                     Book.status b = "pending"%string /\
                     (s = rejected -> Transaction.offeredBookId x <> Some i)).
    { destruct Hs as [-> | ->]; simpl in Hb'; [by eauto|].
      destruct (truthy (Transaction.offeredBookId x)) as [o|] eqn:Eo.
      - rewrite lookup_update_book_status in Hb'. case_decide as Ho.
        + destruct (books db !! i); simplify_eq/=.
        + exists b'. apply truthy_Some in Eo as [Eo _]. split; [done|].
          split; [done|]. intros _. congruence.
      - exists b'. split; [done|]. split; [done|]. intros _ Hoff.
        rewrite Hoff in Eo. simpl in Eo.
        destruct (Z.eqb_spec i 0) as [->|]; [|done]. by apply (Hnz x). }
    destruct Hold as (b & Hb & Hsb & Hrej).
    destruct (Hexp i b Hb Hsb) as [(y & Hy & Hpy & Hry)|(y & Hy & Hay & Hoy)].
    + destruct (Z.eq_dec (Transaction.id y) (Transaction.id x)) as [Heq|Hne].
      * assert (y = x) as -> by (eapply transaction_ids_inj; eauto; apply Hdb).
        apply references_spec in Hry as [Hry|Hry]; [done|].
        destruct Hs as [-> | ->]; [|by destruct Hrej].
        right. exists (Transaction.set_status approved x). auto.
      * left. exists y. split; [|done]. apply Hother; [done|congruence].
    + right. exists y. split; [|done]. apply Hother; [done|]. congruence.
Qed.

Lemma reachable_pending_explained is_url db :
  reachable is_url db -> pending_explained db.
Proof.
  induction 1 as [db (Hts & _ & Hbs)|db r Hr IH].
  - split; [by rewrite Hts|]. intros i b Hb Hs.
    apply Hbs in Hb as [Hav _]. rewrite Hav in Hs. done.
  - apply handle_pending_explained; [by eapply reachable_consistent|done].
Qed.

(** In a reachable database a book is [pending] only when a pending
    request refers to it or an approved request offered it, and every
    book a pending request refers to is [pending]. *)
Lemma pending_books_of_reachable is_url db i b :
  reachable is_url db -> books db !! i = Some b ->
  (pending_reference db i -> Book.status b = "pending"%string) /\
  (Book.status b = "pending"%string ->
   pending_reference db i \/ offered_by_approved db i).
Proof.
  intros Hr Hb. split.
  - intros (x & Hx & Hp & Href).
    destruct (pending_book db (reachable_consistent _ _ Hr) x i Hx Hp Href)
      as (b' & Hb' & Hs). congruence.
  - by apply (reachable_pending_explained is_url db Hr).
Qed.

(** * The claims *)

(** ** Resolution *)

(** C6. Rejecting a pending request, by the owner of the requested book:
    the request becomes [rejected], the requested book [available], and so
    does the offered book, when the request has one. *)
Theorem reject_releases_books db u tid x book :
  u <> 0 -> 0 < tid ->
  select_transaction tid (transactions db) = Some x ->
  books db !! Transaction.requestedBookId x = Some book ->
  Book.ownerId book = u ->
  Transaction.status x = pending ->
  let result :=
    updateTransaction db (Some u) (Some tid) (UpdateTransactionBody.mk "rejected") in
  code (snd result) = 200 /\
  (exists x', select_transaction tid (transactions (fst result)) = Some x' /\
              Transaction.status x' = rejected /\ same_request x x') /\
  (exists book', books (fst result) !! Transaction.requestedBookId x = Some book' /\
                 Book.status book' = "available"%string /\ same_book book book') /\
  forall j b, Transaction.offeredBookId x = Some j -> j <> 0 ->
    books db !! j = Some b ->
    exists b', books (fst result) !! j = Some b' /\
               Book.status b' = "available"%string /\ same_book b b'.
Proof.
  intros Hu Htid Hsel Hbook Hown Hp result. subst result.
  rewrite (updateTransaction_rejected db _ _ _ tid x)
    by (eapply updateTransaction_checks_pass; eauto). simpl.
  split; [done|]. split; [|split].
  - exists (Transaction.set_status rejected x).
    split; [|split; [reflexivity|apply same_request_set_status]].
    rewrite select_update_transaction_status, Hsel. simpl.
    apply select_transaction_Some in Hsel as [_ ->]. by rewrite Z.eqb_refl.
  - exists (Book.set_status "available" book).
    split; [|split; [reflexivity|apply same_book_set_status]].
    rewrite lookup_update_book_status, decide_True by done.
    destruct (truthy (Transaction.offeredBookId x)) as [o|];
      rewrite ?lookup_update_book_status; try case_decide; by rewrite Hbook.
  - intros j b Hj Hj0 Hb. exists (Book.set_status "available" b).
    split; [|split; [reflexivity|apply same_book_set_status]].
    rewrite Hj, truthy_nonzero by done.
    rewrite !lookup_update_book_status, (decide_True (P := j = j)) by done.
    case_decide; by rewrite Hb.
Qed.

(** C2. Approving a pending request, by the owner of the requested book,
    in a table with unique keys where nobody offers the book they ask for:
    the request and its book become [approved]; every other pending
    request for the book becomes [rejected] and its offered book
    [available]; the requests for the book that were resolved before keep
    their row. *)
Theorem approve_cascades db u tid x book :
  List.NoDup (map Transaction.id (transactions db)) ->
  (forall o, In o (transactions db) ->
     Transaction.offeredBookId o <> Some (Transaction.requestedBookId o)) ->
  u <> 0 -> 0 < tid ->
  select_transaction tid (transactions db) = Some x ->
  books db !! Transaction.requestedBookId x = Some book ->
  Book.ownerId book = u ->
  Transaction.status x = pending ->
  let result :=
    updateTransaction db (Some u) (Some tid) (UpdateTransactionBody.mk "approved") in
  code (snd result) = 200 /\
  (exists x', select_transaction tid (transactions (fst result)) = Some x' /\
              Transaction.status x' = approved /\ same_request x x') /\
  (exists book', books (fst result) !! Transaction.requestedBookId x = Some book' /\
                 Book.status book' = "approved"%string /\ same_book book book') /\
  (forall o, In o (transactions db) -> Transaction.id o <> tid ->
     Transaction.requestedBookId o = Transaction.requestedBookId x ->
     Transaction.status o = pending ->
     (exists o', select_transaction (Transaction.id o) (transactions (fst result))
                   = Some o' /\
                 Transaction.status o' = rejected /\ same_request o o') /\
     forall j b, Transaction.offeredBookId o = Some j -> j <> 0 ->
       books db !! j = Some b ->
       exists b', books (fst result) !! j = Some b' /\
                  Book.status b' = "available"%string /\ same_book b b') /\
  (forall o, In o (transactions db) ->
     Transaction.requestedBookId o = Transaction.requestedBookId x ->
     Transaction.status o <> pending ->
     select_transaction (Transaction.id o) (transactions (fst result)) = Some o).
Proof.
  intros Hnd Hoff Hu Htid Hsel Hbook Hown Hp result. subst result.
  destruct (updateTransaction_approved db (Some u) (Some tid)
              (UpdateTransactionBody.mk "approved") tid x)
    as (Hts & Hbs & Hres);
    [by eapply updateTransaction_checks_pass|].
  rewrite Hts, Hres. clear Hts Hres.
  set (ts1 := update_transaction_status tid approved (transactions db)) in *.
  set (others := select_by_requestedBook (Transaction.requestedBookId x) ts1) in *.
  pose proof Hsel as [Hx Hidx]%select_transaction_Some.
  (* the rows of the snapshot other than the target are rows of the table *)
  assert (Hothers : forall o, In o others -> Transaction.id o <> tid ->
            In o (transactions db) /\
            Transaction.requestedBookId o = Transaction.requestedBookId x).
  { intros o [Ho Hreq]%filter_In Hne. apply Z.eqb_eq in Hreq. split; [|done].
    apply in_update_transaction_status in Ho as (y & Hy & ->).
    destruct (Z.eqb_spec (Transaction.id y) tid); [done|done]. }
  assert (Hin : forall o, In o (transactions db) -> Transaction.id o <> tid ->
            Transaction.requestedBookId o = Transaction.requestedBookId x ->
            In o others).
  { intros o Ho Hne Hreq. apply filter_In. split; [|by apply Z.eqb_eq].
    apply in_update_transaction_status. exists o. split; [done|].
    by destruct (Z.eqb_spec (Transaction.id o) tid). }
  assert (Hsel1 : forall o, In o (transactions db) -> Transaction.id o <> tid ->
            select_transaction (Transaction.id o) ts1 = Some o).
  { intros o Ho Hne. subst ts1.
    rewrite select_update_transaction_status, select_transaction_In by done.
    simpl. by destruct (Z.eqb_spec (Transaction.id o) tid). }
  assert (Hmap : forall j,
            select_transaction j
              (map (fun y => if rejected_by tid others y
                             then Transaction.set_status rejected y else y) ts1)
            = (fun y => if rejected_by tid others y
                        then Transaction.set_status rejected y else y)
                <$> select_transaction j ts1).
  { intros j. apply select_transaction_map. intros y. by destruct (rejected_by _ _ _). }
  simpl. split; [done|]. split; [|split; [|split]].
  - exists (Transaction.set_status approved x).
    split; [|split; [reflexivity|apply same_request_set_status]].
    rewrite Hmap. subst ts1. rewrite select_update_transaction_status, Hsel.
    simpl. rewrite Hidx, Z.eqb_refl, rejected_by_target; done.
  - exists (Book.set_status "approved" book).
    split; [|split; [reflexivity|apply same_book_set_status]].
    rewrite Hbs, decide_True, Hbook; done.
  - intros o Ho Hne Hreq Hpo. split.
    + exists (Transaction.set_status rejected o).
      split; [|split; [reflexivity|apply same_request_set_status]].
      rewrite Hmap, Hsel1 by done. simpl.
      assert (rejected_by tid others o = true) as ->; [|done].
      apply rejected_by_true. exists o. auto.
    + intros j b Hj Hj0 Hb. exists (Book.set_status "available" b).
      split; [|split; [reflexivity|apply same_book_set_status]].
      rewrite Hbs.
      rewrite decide_False.
      2:{ intros Heq. apply (Hoff o Ho). congruence. }
      assert (released_by tid others j = true) as ->; [|by rewrite Hb].
      apply released_by_true. exists o. rewrite Hj, truthy_nonzero by done. auto.
  - intros o Ho Hreq Hnp.
    assert (Transaction.id o <> tid) as Hne.
    { intros Heq. apply Hnp. rewrite <- Hp. f_equal.
      eapply transaction_ids_inj; eauto. congruence. }
    rewrite Hmap, Hsel1 by done. simpl.
    destruct (rejected_by tid others o) eqn:Er; [|done].
    apply rejected_by_true in Er as (o' & Ho' & Hne' & Hp' & Hid').
    destruct (Hothers o' Ho' Hne') as [Hin' _].
    assert (o' = o) as -> by (by eapply transaction_ids_inj). done.
Qed.

(** ** Authorization *)

(** C3, as the code has it.  For an authenticated caller, a well-formed
    request and an existing transaction, the answer is Forbidden exactly
    when the caller is not the current owner of the requested book; the
    [ownerId] column of the transaction is not consulted. *)
Theorem forbidden_iff_not_book_owner db u tid body s x book :
  u <> 0 -> 0 < tid ->
  parse_TransactionStatus (UpdateTransactionBody.status body) = Some s ->
  select_transaction tid (transactions db) = Some x ->
  books db !! Transaction.requestedBookId x = Some book ->
  error_kind (snd (updateTransaction db (Some u) (Some tid) body))
    = Some ForbiddenError
  <-> u <> Book.ownerId book.
Proof.
  intros Hu Htid Hs Hsel Hbook.
  unfold updateTransaction, updateTransaction_checks, updateTransactionSchema,
    select_transaction_with_book.
  rewrite !truthy_nonzero by lia. simpl.
  destruct (Z.ltb_spec 0 tid); [|lia]. rewrite Hs, Hsel, Hbook. simpl.
  destruct (Z.eqb_spec (Book.ownerId book) u) as [Heq|Hne]; simpl.
  - split; [|congruence]. intros Hk. exfalso. revert Hk.
    destruct (is_pending (Transaction.status x)); simpl; [|done].
    destruct s; simpl; try done.
    by destruct (fold_left _ _ _) as [ts2 bs2].
  - split; [congruence|done].
Qed.

(** ** Creation *)

Lemma createTransaction_checks_inl db user body r :
  createTransaction_checks db user body = inl r ->
  In (code r) [400; 401; 403; 404] /\ is_Some (error_kind r) /\ data r = None.
Proof.
  unfold createTransaction_checks, require, reject_if.
  destruct (truthy user) as [u|]; [|early_return].
  destruct (createTransactionSchema body) as [input|]; [|early_return].
  destruct (books db !! _) as [book|]; [|early_return].
  destruct (negb (Book.status book =? "available")%string); [early_return|].
  destruct (negb (Book.ownerId book =? _)); [early_return|].
  destruct (CreateTransactionInput.type input).
  - destruct (Book.ownerId book =? u); [early_return|].
    destruct (negb _); [early_return|].
    destruct (select_pending_request _ _ _); [early_return|done].
  - destruct (truthy (CreateTransactionInput.offeredBookId input)) as [o|];
      [|early_return].
    destruct (books db !! o) as [ob|]; [|early_return].
    destruct (negb (Book.ownerId ob =? u)); [early_return|].
    destruct (negb (Book.status ob =? "available")%string); [early_return|].
    destruct (o =? _); [early_return|].
    destruct (Book.ownerId book =? u); [early_return|].
    destruct (negb _); [early_return|].
    destruct (select_pending_request _ _ _); [early_return|done].
Qed.

(** C9. A request in Exchange mode that offers the requested book is
    turned down: the answer is an error and the database is unchanged,
    whatever the caller, the other fields and the state. *)
Theorem exchange_for_same_book_fails db user body :
  CreateTransactionBody.type body = "Exchange"%string ->
  CreateTransactionBody.offeredBookId body
    = Some (CreateTransactionBody.requestedBookId body) ->
  fst (createTransaction db user body) = db /\
  code (snd (createTransaction db user body)) <> 201 /\
  is_Some (error_kind (snd (createTransaction db user body))).
Proof.
  intros Hty Hoff. unfold createTransaction.
  destruct (createTransaction_checks db user body) as [r|[u input]] eqn:E.
  - apply createTransaction_checks_inl in E as (Hc & Hk & _). simpl.
    split; [done|]. split; [|done].
    intros Heq. rewrite Heq in Hc. simpl in Hc. intuition lia.
  - exfalso. apply createTransaction_checks_inr in E as (_ & Hs & _ & Hex & _).
    apply createTransactionSchema_Some in Hs as (Hp & Hr & _ & Ho & _).
    rewrite Hty in Hp. injection Hp as Hp. rewrite <- Hp in Hex.
    destruct Hex as (o & _ & Htr & _ & _ & _ & Hne).
    rewrite Ho, Hoff, <- Hr in Htr. apply truthy_Some in Htr as [[= <-] _]. done.
Qed.


(** ** Invariants of the reachable databases *)

(** C5. In a reachable database at most one approved request asks for a
    given book. *)
Theorem at_most_one_approved is_url db x y :
  reachable is_url db ->
  In x (transactions db) -> In y (transactions db) ->
  Transaction.status x = approved -> Transaction.status y = approved ->
  Transaction.requestedBookId x = Transaction.requestedBookId y ->
  x = y.
Proof.
  intros Hr%reachable_consistent. by apply (approved_unique db Hr).
Qed.

(** C8. A requester who holds a pending request for a book asks for it
    again: the book is [pending], so the request is turned down as not
    requestable, a conflict, and nothing is written. *)
Theorem second_request_conflicts is_url db x body input :
  reachable is_url db ->
  In x (transactions db) ->
  Transaction.status x = pending ->
  createTransactionSchema body = Some input ->
  CreateTransactionInput.requestedBookId input = Transaction.requestedBookId x ->
  let result := createTransaction db (Some (Transaction.requesterId x)) body in
  fst result = db /\
  error_kind (snd result) = Some ConflictError /\
  message (snd result) = "Book is not available for request"%string.
Proof.
  intros Hr%reachable_consistent Hx Hp Hs Hreq result. subst result.
  destruct (pending_book db Hr x (Transaction.requestedBookId x) Hx Hp)
    as (b & Hb & Hsb); [apply references_spec; by left|].
  unfold createTransaction, createTransaction_checks.
  rewrite truthy_nonzero by (by apply (requester_authenticated db Hr)).
  rewrite Hs. simpl. rewrite Hreq, Hb. simpl. rewrite Hsb. done.
Qed.

(** C7, as the code has it.  A call that targets a resolved request
    fails and writes nothing; the failure is a conflict when the caller
    is the owner of the requested book and the body is well formed, the
    earlier checks answering first otherwise.  No request of the server
    changes the row of a resolved request. *)
Theorem resolved_request_is_final is_url db x :
  reachable is_url db ->
  In x (transactions db) ->
  Transaction.status x = approved \/ Transaction.status x = rejected ->
  (forall user body,
     let result := updateTransaction db user (Some (Transaction.id x)) body in
     fst result = db /\
     code (snd result) <> 200 /\
     forall book s,
       books db !! Transaction.requestedBookId x = Some book ->
       truthy user = Some (Book.ownerId book) ->
       parse_TransactionStatus (UpdateTransactionBody.status body) = Some s ->
       error_kind (snd result) = Some ConflictError) /\
  (forall r,
     select_transaction (Transaction.id x) (transactions (handle is_url db r))
       = Some x).
Proof.
  intros Hr%reachable_consistent Hx Hst.
  assert (Hnp : Transaction.status x <> pending) by (destruct Hst; congruence).
  split.
  - intros user body result. subst result.
    destruct (transaction_ids_drawn db Hr x Hx) as [Hpos _].
    destruct (requested_book_exists db Hr x Hx) as [bk Hbk].
    assert (Hsel : select_transaction_with_book db (Transaction.id x) = Some (x, bk)).
    { apply select_transaction_with_book_Some. split; [|done].
      apply select_transaction_In; [apply Hr|done]. }
    unfold updateTransaction, updateTransaction_checks, updateTransactionSchema,
      require, reject_if.
    rewrite (truthy_nonzero (Transaction.id x)), Hsel by lia.
    destruct (Z.ltb_spec 0 (Transaction.id x)); [|lia].
    destruct (truthy user) as [u|] eqn:Eu;
      [|split; [done|split; [done|intros ????; congruence]]].
    destruct (parse_TransactionStatus _) as [s|] eqn:Es;
      [|split; [done|split; [done|intros ????; congruence]]].
    destruct (Z.eqb_spec (Book.ownerId bk) u) as [Hown|Hown]; simpl.
    + assert (is_pending (Transaction.status x) = false) as ->
        by (by destruct (Transaction.status x)).
      simpl. done.
    + split; [done|]. split; [done|]. intros book s' Hbook Hu _.
      rewrite Hbk in Hbook. injection Hbook as <-. congruence.
  - intros r. apply select_transaction_In.
    + apply (handle_consistent is_url db r Hr).
    + by apply resolved_row_stays.
Qed.

(** ** Books *)

(** C10. [updateBook] never writes the [status] column, nor the
    transactions; among the requests of the server, only those that
    create or update a transaction change the status of a book. *)
Theorem updateBook_keeps_status is_url db :
  (forall user id body,
     transactions (fst (updateBook is_url db user id body)) = transactions db /\
     forall i, Book.status <$> books (fst (updateBook is_url db user id body)) !! i
               = Book.status <$> books db !! i) /\
  (forall r i b b',
     reachable is_url db ->
     books db !! i = Some b -> books (handle is_url db r) !! i = Some b' ->
     Book.status b' <> Book.status b ->
     is_transaction_request r = true).
Proof.
  assert (Hupd : forall user id body,
     transactions (fst (updateBook is_url db user id body)) = transactions db /\
     forall i, Book.status <$> books (fst (updateBook is_url db user id body)) !! i
               = Book.status <$> books db !! i).
  { intros user id body. unfold updateBook.
    destruct (match require (truthy user) _ with inl _ => _ | inr _ => _ end)
      as [r|[bookId patch]]; [done|]. simpl. split; [done|].
    intros i. rewrite lookup_alter. case_decide; subst; [|done].
    by destruct (books db !! _). }
  split; [done|].
  intros r i b b' Hr%reachable_consistent Hb Hb' Hne.
  destruct r as [u bd|u j bd|u j|u bd|u j bd]; simpl in *; try done; exfalso.
  - revert Hb'. unfold createBook.
    destruct (match require (truthy u) _ with inl _ => _ | inr _ => _ end);
      simpl; [congruence|].
    rewrite lookup_insert_ne; [congruence|].
    intros <-. assert (books_seq db < books_seq db); [|lia].
    by apply (book_ids_drawn db Hr).
  - destruct (Hupd u j bd) as [_ Hst]. specialize (Hst i).
    rewrite Hb, Hb' in Hst. simpl in Hst. congruence.
  - revert Hb'. unfold deleteBook.
    destruct (match require (truthy u) _ with inl _ => _ | inr _ => _ end);
      simpl; [congruence|].
    destruct (decide (z = i)) as [->|];
      [by rewrite lookup_delete_eq|rewrite lookup_delete_ne by done; congruence].
Qed.

(** * The scenarios *)

Lemma shelf_initial : initial shelf.
Proof.
  split; [done|]. split; [done|]. intros i b. unfold shelf. simpl.
  rewrite !lookup_insert_Some, lookup_empty.
  intros [[<- <-]|[_ [[<- <-]|[_ ?]]]]; done.
Qed.

Lemma exchange_requested_reachable is_url : reachable is_url exchange_requested.
Proof.
  apply (reachable_handle is_url shelf (POST_transaction (Some 2) exchange_request)).
  apply reachable_initial, shelf_initial.
Qed.

Lemma exchange_approved_reachable is_url : reachable is_url exchange_approved.
Proof.
  apply (reachable_handle is_url exchange_requested
           (PATCH_transaction (Some 1) (Some 1) (UpdateTransactionBody.mk "approved"))).
  apply exchange_requested_reachable.
Qed.

Lemma handed_over_reachable is_url : reachable is_url (handed_over is_url).
Proof.
  apply (reachable_handle is_url exchange_requested
           (PATCH_books (Some 1) (Some 1) hand_over)).
  apply exchange_requested_reachable.
Qed.

(** C1. The code leaves the offered book of an approved exchange
    [pending]: after member 2 asks for book 1 in exchange for book 2 and
    member 1 approves, book 2 is [pending] and no pending request refers
    to it, in a reachable database. *)
Theorem approved_exchange_strands_offered_book is_url :
  reachable is_url exchange_approved /\
  Book.status <$> books exchange_approved !! 2 = Some "pending"%string /\
  ~ pending_reference exchange_approved 2 /\
  ~ status_tracks_requests exchange_approved.
Proof.
  assert (Hno : ~ pending_reference exchange_approved 2).
  { intros (x & Hx & Hp & _). vm_compute in Hx. destruct Hx as [<-|[]]. done. }
  split; [apply exchange_approved_reachable|]. split; [done|]. split; [done|].
  intros H. apply Hno.
  apply (H 2 (Book.set_status "pending" (a_book Exchange 2))); done.
Qed.

(** C2, at the contested table: request 2, the pending sibling of the
    approved request 1, is rejected, and book 3, which it offered and
    which was pending, is available again. *)
Lemma approve_cascades_witness :
  Book.status <$> books contested !! 3 = Some "pending"%string /\
  (exists o',
     select_transaction 2
       (transactions (fst (updateTransaction contested (Some 1) (Some 1)
                             (UpdateTransactionBody.mk "approved"))))
     = Some o' /\
     Transaction.status o' = rejected /\
     same_request (Transaction.mk 2 3 1 1 Exchange (Some 3) pending) o') /\
  exists b',
    books (fst (updateTransaction contested (Some 1) (Some 1)
                  (UpdateTransactionBody.mk "approved"))) !! 3
    = Some b' /\
    Book.status b' = "available"%string /\
    same_book (a_pending_book Exchange 3) b'.
Proof.
  split; [reflexivity|].
  destruct (approve_cascades contested 1 1
              (Transaction.mk 1 2 1 1 Exchange (Some 2) pending)
              (a_pending_book Exchange 1))
    as (_ & _ & _ & Hsiblings & _).
  - repeat constructor; simpl; intuition lia.
  - intros o [<-|[<-|[<-|[]]]]; done.
  - lia.
  - lia.
  - reflexivity.
  - reflexivity.
  - reflexivity.
  - reflexivity.
  - destruct (Hsiblings (Transaction.mk 2 3 1 1 Exchange (Some 3) pending))
      as [Hrow Hbook].
    + simpl. auto.
    + simpl. lia.
    + reflexivity.
    + reflexivity.
    + split; [exact Hrow|].
      apply (Hbook 3 (a_pending_book Exchange 3));
        [reflexivity|lia|reflexivity].
Defined.

(** C6, at the exchange request: book 2, which the request offered and
    which was pending, is available again after the rejection. *)
Lemma reject_releases_books_witness :
  Book.status <$> books exchange_requested !! 2 = Some "pending"%string /\
  exists b',
    books (fst (updateTransaction exchange_requested (Some 1) (Some 1)
                  (UpdateTransactionBody.mk "rejected"))) !! 2
    = Some b' /\
    Book.status b' = "available"%string /\
    same_book (a_pending_book Exchange 2) b'.
Proof.
  split; [reflexivity|].
  destruct (reject_releases_books exchange_requested 1 1 the_request
              (a_pending_book Exchange 1))
    as (_ & _ & _ & Hoffered);
    [lia|lia|reflexivity|reflexivity|reflexivity|reflexivity|].
  apply (Hoffered 2 (a_pending_book Exchange 2));
    [reflexivity|lia|reflexivity].
Defined.

(** C3: after the hand-over, member 1 is still the owner recorded in the
    request, and is refused. *)
Lemma request_owner_is_refused :
  (reachable (fun _ => true) (handed_over (fun _ => true)) /\
   select_transaction 1 (transactions (handed_over (fun _ => true)))
     = Some the_request /\
   Transaction.ownerId the_request = 1 /\
   snd (updateTransaction (handed_over (fun _ => true)) (Some 1) (Some 1)
          (UpdateTransactionBody.mk "approved"))
     = failure 403 "Only the book owner can update transaction status") /\
  ~ forbidden_iff_not_request_owner.
Proof.
  split; [by split; [apply handed_over_reachable|]|].
  intros H.
  destruct (H (fun _ => true) (handed_over (fun _ => true)) 1 1
              (UpdateTransactionBody.mk "approved") approved the_request)
    as [Hforbidden _];
    [apply handed_over_reachable|lia|lia|reflexivity|reflexivity|].
  apply Hforbidden; reflexivity.
Qed.

(** C3, after the hand-over: member 3, the new owner, is not refused. *)
Lemma forbidden_iff_not_book_owner_witness :
  error_kind (snd (updateTransaction (handed_over (fun _ => true)) (Some 3) (Some 1)
                     (UpdateTransactionBody.mk "approved")))
    = Some ForbiddenError
  <-> 3 <> 3.
Proof.
  apply (forbidden_iff_not_book_owner (handed_over (fun _ => true)) 3 1
           (UpdateTransactionBody.mk "approved") approved the_request
           (Book.mk "Matilda" "Roald Dahl" "Fiction" "8-12"
                    "https://example.org/matilda.png" Exchange "pending" 3));
    [lia|lia|reflexivity|reflexivity|reflexivity].
Defined.



(** C5, at the approved exchange. *)
Lemma at_most_one_approved_witness :
  Transaction.set_status approved the_request
  = Transaction.set_status approved the_request.
Proof.
  apply (at_most_one_approved (fun _ => true) exchange_approved
           (Transaction.set_status approved the_request)
           (Transaction.set_status approved the_request));
    [apply exchange_approved_reachable|left; reflexivity|left; reflexivity
    |reflexivity|reflexivity|reflexivity].
Defined.

(** C7: member 2, who is not the owner, targets the approved request and
    is answered Forbidden. *)
Lemma stranger_is_refused_first :
  (reachable (fun _ => true) exchange_approved /\
   In (Transaction.set_status approved the_request)
      (transactions exchange_approved) /\
   snd (updateTransaction exchange_approved (Some 2) (Some 1)
          (UpdateTransactionBody.mk "rejected"))
     = failure 403 "Only the book owner can update transaction status") /\
  ~ resolved_request_always_conflicts.
Proof.
  split; [split; [apply exchange_approved_reachable|split; [by left|done]]|].
  intros H.
  assert (Hkind := H (fun _ => true) exchange_approved
                     (Transaction.set_status approved the_request) 2
                     (UpdateTransactionBody.mk "rejected") rejected
                     (exchange_approved_reachable _)
                     (or_introl eq_refl) (or_introl eq_refl)
                     ltac:(lia) eq_refl).
  vm_compute in Hkind. discriminate.
Qed.

(** C7, at the approved exchange: the owner tries to reject it after
    all. *)
Lemma resolved_request_is_final_witness :
  fst (updateTransaction exchange_approved (Some 1) (Some 1)
         (UpdateTransactionBody.mk "rejected")) = exchange_approved /\
  error_kind (snd (updateTransaction exchange_approved (Some 1) (Some 1)
                     (UpdateTransactionBody.mk "rejected")))
    = Some ConflictError.
Proof.
  destruct (resolved_request_is_final (fun _ => true) exchange_approved
              (Transaction.set_status approved the_request)
              (exchange_approved_reachable _)
              (or_introl eq_refl) (or_introl eq_refl))
    as [Hcall _].
  destruct (Hcall (Some 1) (UpdateTransactionBody.mk "rejected"))
    as (Hdb & _ & Hkind).
  split; [exact Hdb|].
  apply (Hkind (Book.set_status "approved" (a_book Exchange 1)) rejected);
    reflexivity.
Defined.

(** C8, at the exchange request: member 2 sends it a second time. *)
Lemma second_request_conflicts_witness :
  fst (createTransaction exchange_requested (Some 2) exchange_request)
    = exchange_requested /\
  error_kind (snd (createTransaction exchange_requested (Some 2) exchange_request))
    = Some ConflictError /\
  message (snd (createTransaction exchange_requested (Some 2) exchange_request))
    = "Book is not available for request"%string.
Proof.
  apply (second_request_conflicts (fun _ => true) exchange_requested the_request
           exchange_request (CreateTransactionInput.mk 1 1 Exchange (Some 2))
           (exchange_requested_reachable _)
           (or_introl eq_refl) eq_refl eq_refl eq_refl).
Defined.

(** C9, at the shelf: member 2 asks for book 1 and offers book 1. *)
Lemma exchange_for_same_book_fails_witness :
  fst (createTransaction shelf (Some 2)
         (CreateTransactionBody.mk 1 1 "Exchange" (Some 1))) = shelf /\
  code (snd (createTransaction shelf (Some 2)
               (CreateTransactionBody.mk 1 1 "Exchange" (Some 1)))) <> 201 /\
  is_Some (error_kind (snd (createTransaction shelf (Some 2)
                              (CreateTransactionBody.mk 1 1 "Exchange" (Some 1))))).
Proof.
  apply (exchange_for_same_book_fails shelf (Some 2)
           (CreateTransactionBody.mk 1 1 "Exchange" (Some 1)) eq_refl eq_refl).
Defined.

(** C10, at the shelf: the request that moves book 1 to [pending] is a
    transaction request. *)
Lemma updateBook_keeps_status_witness :
  is_transaction_request (POST_transaction (Some 2) exchange_request) = true.
Proof.
  apply (proj2 (updateBook_keeps_status (fun _ => true) shelf)
           (POST_transaction (Some 2) exchange_request) 1
           (a_book Exchange 1) (Book.set_status "pending" (a_book Exchange 1))
           (reachable_initial _ shelf shelf_initial) eq_refl eq_refl).
  simpl. discriminate.
Defined.

(** C10, at the exchange request: the hand-over changes the owner of
    book 1, and the [status] key of its body is ignored. *)
Example hand_over_keeps_status is_url :
  books (handed_over is_url) !! 1
  = Some (Book.mk "Matilda" "Roald Dahl" "Fiction" "8-12"
                  "https://example.org/matilda.png" Exchange "pending" 3).
Proof. reflexivity. Qed.

(** * Further properties of the controllers *)

(** ** More invariants *)

Lemma update_book_status_Some i s (bs : gmap Z Book.t) j b' :
  update_book_status i s bs !! j = Some b' ->
  exists b, bs !! j = Some b /\ (b' = b \/ (i = j /\ b' = Book.set_status s b)).
Proof.
  rewrite lookup_update_book_status. case_decide; [|by eauto].
  destruct (bs !! j) as [b|]; [|done]. intros [= <-]. eauto.
Qed.

Lemma initial_sound db : initial db -> sound db.
Proof.
  intros (Hts & _ & Hbs). split; rewrite ?Hts; try done.
  - intros i b Hb. apply Hbs in Hb as [-> _]. by left.
  - intros i b Hb Hs. apply Hbs in Hb as [Hav _]. rewrite Hav in Hs. done.
Qed.

Lemma handle_sound is_url db r :
  consistent db -> sound db -> sound (handle is_url db r).
Proof.
  intros Hdb [Hoe Hro Hts Hfk Hbs Har].
  destruct r as [u bd|u j bd|u j|u bd|u j bd]; simpl.
  - unfold createBook.
    destruct (match require (truthy u) _ with inl _ => _ | inr _ => _ end);
      [done|]. split; simpl; try done.
    + intros x o Hx Ho. destruct (Hfk x o Hx Ho) as [b Hb].
      rewrite lookup_insert. case_decide; eauto.
    + intros i b [[_ <-]|[_ Hb]]%lookup_insert_Some; [by left|by eapply Hbs].
    + intros i b [[_ <-]|[_ Hb]]%lookup_insert_Some; [done|by eapply Har].
  - unfold updateBook.
    destruct (match require (truthy u) _ with inl _ => _ | inr _ => _ end)
      as [|[bookId patch]]; [done|].
    assert (Hold : forall i b', alter (set_book patch) bookId (books db) !! i = Some b' ->
              exists b, books db !! i = Some b /\ Book.status b' = Book.status b).
    { intros i b'. rewrite lookup_alter. case_decide; subst; [|by eauto].
      destruct (books db !! i) as [b|]; [|done]. intros [= <-]. eauto. }
    split; simpl; try done.
    + intros x o Hx Ho. rewrite lookup_alter.
      case_decide; subst; [rewrite fmap_is_Some|]; eauto.
    + intros i b' (b & Hb & ->)%Hold. by eapply Hbs.
    + intros i b' (b & Hb & ->)%Hold. by eapply Har.
  - unfold deleteBook.
    destruct (match require (truthy u) _ with inl _ => _ | inr _ => _ end)
      as [|bookId] eqn:E; [done|].
    assert (Hno : forall x, In x (transactions db) -> references bookId x = false).
    { revert E. unfold require, reject_if.
      destruct (truthy u); [|done]. destruct (truthy j); [|done].
      destruct (books db !! _); [|done]. destruct (negb _); [done|].
      destruct (existsb _ _) eqn:Ex; [done|]. intros [= <-].
      intros x Hx. destruct (references z0 x) eqn:Er; [|done].
      assert (existsb (references z0) (transactions db) = true); [|congruence].
      apply existsb_exists. eauto. }
    split; simpl; try done.
    + intros x o Hx Ho. rewrite lookup_delete_ne; [eauto|].
      intros ->. specialize (Hno x Hx). apply not_true_iff_false in Hno.
      apply Hno, references_spec. by right.
    + intros i b [_ Hb]%lookup_delete_Some. by eapply Hbs.
    + intros i b [_ Hb]%lookup_delete_Some. by eapply Har.
  - destruct (createTransaction_checks db u bd) as [|[v input]] eqn:E.
    { unfold createTransaction. by rewrite E. }
    destruct (createTransaction_inr db u bd v input E) as [Hts' Hbs'].
    apply createTransaction_checks_inr in E
      as (_ & Hs & (book & Hbook & _ & Hown & Hnown & _) & Hex & _).
    apply createTransactionSchema_Some in Hs as (_ & _ & _ & _ & _ & Hoff).
    assert (Hstep : forall i b', books (fst (createTransaction db u bd)) !! i = Some b' ->
              exists b, books db !! i = Some b /\
                        (b' = b \/ b' = Book.set_status "pending" b)).
    { intros i b'. rewrite Hbs'. destruct (references i _); [|by eauto].
      destruct (books db !! i) as [b|]; [|done]. intros [= <-]. eauto. }
    assert (Hkeep : forall i, is_Some (books db !! i) ->
              is_Some (books (fst (createTransaction db u bd)) !! i)).
    { intros i. rewrite Hbs'. destruct (references i _); [|done].
      by rewrite fmap_is_Some. }
    split; rewrite ?Hts'.
    + intros x [Hx|[<-|[]]]%in_app_or; [by apply Hoe|]. simpl.
      destruct (CreateTransactionInput.type input).
      * rewrite Hoff. split; [done|]. by intros [? ?].
      * destruct Hex as (o & _ & -> & _). split; [eauto|done].
    + intros x [Hx|[<-|[]]]%in_app_or; [by apply Hro|]. simpl. congruence.
    + intros x [Hx|[<-|[]]]%in_app_or; [by apply Hts|]. by left.
    + intros x o [Hx|[<-|[]]]%in_app_or Ho; [by eapply Hkeep, Hfk|].
      apply Hkeep. simpl in Ho.
      destruct (CreateTransactionInput.type input); [by rewrite Hoff in Ho|].
      destruct Hex as (o' & ob & Ho' & Hob & _). rewrite Ho' in Ho.
      injection Ho as <-. eauto.
    + intros i b' (b & Hb & [->| ->])%Hstep; [by eapply Hbs|]. right. by left.
    + intros i b' Hb' Hs'. destruct (Hstep i b' Hb') as (b & Hb & [->| ->]); [|done].
      destruct (Har i b Hb Hs') as (x & Hx & ?). exists x.
      split; [apply in_or_app; by left|done].
  - destruct (updateTransaction_checks db u j bd) as [|[[tid x] s]] eqn:E.
    { unfold updateTransaction. by rewrite E. }
    rewrite (updateTransaction_consistent_inr db Hdb _ _ _ _ _ _ E).
    apply updateTransaction_checks_inr in E
      as (_ & bk & _ & _ & _ & Hsel & Hbk & _ & Hp & Hs).
    pose proof Hsel as [Hx Hid]%select_transaction_Some.
    set (bs' := update_book_status _ _ _).
    assert (Hstep : forall i b', bs' !! i = Some b' ->
              exists b, books db !! i = Some b /\
                (b' = b \/
                 (s = rejected /\ b' = Book.set_status "available" b) \/
                 (s = approved /\ i = Transaction.requestedBookId x /\
                  b' = Book.set_status "approved" b))).
    { intros i b'. subst bs'. intros (b1 & Hb1 & Hc)%update_book_status_Some.
      destruct Hs as [-> | ->]; simpl in *.
      - exists b1. split; [done|]. destruct Hc as [->|[<- ->]]; auto.
      - destruct (truthy (Transaction.offeredBookId x)) as [o|].
        + apply update_book_status_Some in Hb1 as (b & Hb & Hc').
          exists b. split; [done|].
          destruct Hc as [->|[_ ->]], Hc' as [->|[_ ->]]; auto.
        + exists b1. split; [done|]. destruct Hc as [->|[_ ->]]; auto. }
    assert (Hkeep : forall i, is_Some (books db !! i) -> is_Some (bs' !! i)).
    { intros i Hi. subst bs'. apply update_book_status_is_Some.
      destruct Hs as [-> | ->]; simpl; [done|].
      destruct (truthy _); [by apply update_book_status_is_Some|done]. }
    split; simpl; fold bs'.
    + intros y' (y & Hy & ->)%in_update_transaction_status.
      destruct (_ =? _); simpl; by apply Hoe.
    + intros y' (y & Hy & ->)%in_update_transaction_status.
      destruct (_ =? _); simpl; by apply Hro.
    + intros y' (y & Hy & ->)%in_update_transaction_status.
      destruct (_ =? _); simpl; [|by apply Hts].
      destruct Hs as [-> | ->]; simpl; auto.
    + intros y' o (y & Hy & ->)%in_update_transaction_status Ho.
      apply Hkeep. apply (Hfk y o Hy). by destruct (_ =? _).
    + intros i b' (b & Hb & [->|[[_ ->]|(_ & _ & ->)]])%Hstep; simpl;
        [by eapply Hbs|by left|by right; right; left].
    + intros i b' Hb' Hs'.
      destruct (Hstep i b' Hb') as (b & Hb & [->|[[_ ->]|(-> & -> & ->)]]);
        [|done|].
      * destruct (Har i b Hb Hs') as (y & Hy & Hay & Hry). exists y.
        split; [|done]. apply in_update_transaction_status. exists y.
        split; [done|]. destruct (Z.eqb_spec (Transaction.id y) tid); [|done].
        assert (y = x) as -> by (eapply transaction_ids_inj; eauto; [apply Hdb|congruence]).
        congruence.
      * exists (Transaction.set_status approved x). split; [|done].
        apply in_update_transaction_status. exists x. by rewrite Hid, Z.eqb_refl.
Qed.

Lemma reachable_sound is_url db : reachable is_url db -> sound db.
Proof.
  induction 1 as [db Hinit|db r Hr IH].
  - by apply initial_sound.
  - apply handle_sound; [by eapply reachable_consistent|done].
Qed.

(** ** What a success of the transaction handlers means *)

Lemma updateTransaction_checks_inl db user id body r :
  updateTransaction_checks db user id body = inl r ->
  In (code r) [400; 401; 403; 404].
Proof.
  unfold updateTransaction_checks, require, reject_if.
  destruct (truthy user); [|intros [= <-]; simpl; auto].
  destruct (truthy id); [|intros [= <-]; simpl; auto].
  destruct (updateTransactionSchema _ _); [|intros [= <-]; simpl; auto].
  destruct (select_transaction_with_book _ _) as [[x b]|];
    [|intros [= <-]; simpl; auto 6].
  destruct (negb (_ =? _)); [intros [= <-]; simpl; auto 6|].
  destruct (negb (is_pending _)); [intros [= <-]; simpl; auto|].
  destruct (negb (is_resolution _)); [intros [= <-]; simpl; auto|done].
Qed.

Lemma updateTransaction_inr db user id body tid x s :
  updateTransaction_checks db user id body = inr (tid, x, s) ->
  code (snd (updateTransaction db user id body)) = 200.
Proof.
  intros E. pose proof E as Hc.
  apply updateTransaction_checks_inr in Hc
    as (_ & _ & _ & _ & _ & _ & _ & _ & _ & [-> | ->]).
  - by destruct (updateTransaction_approved db user id body tid x E) as (_ & _ & ->).
  - by rewrite (updateTransaction_rejected db user id body tid x E).
Qed.

Lemma createTransaction_201 db user body :
  code (snd (createTransaction db user body)) = 201 ->
  exists userId input, createTransaction_checks db user body = inr (userId, input).
Proof.
  unfold createTransaction.
  destruct (createTransaction_checks db user body) as [r|[u input]] eqn:E; [|eauto].
  apply createTransaction_checks_inl in E as [Hc _]. simpl. intros Heq.
  rewrite Heq in Hc. simpl in Hc. intuition lia.
Qed.

Lemma updateTransaction_200 db user id body :
  code (snd (updateTransaction db user id body)) = 200 ->
  exists tid x s, updateTransaction_checks db user id body = inr (tid, x, s).
Proof.
  destruct (updateTransaction_checks db user id body) as [r|[[tid x] s]] eqn:E;
    [|eauto].
  unfold updateTransaction. rewrite E.
  apply updateTransaction_checks_inl in E. simpl. intros Heq.
  rewrite Heq in E. simpl in E. intuition lia.
Qed.

Lemma createTransactionSchema_spec body input :
  createTransactionSchema body = Some input <->
  0 < CreateTransactionBody.requestedBookId body /\
  0 < CreateTransactionBody.ownerId body /\
  exists ty,
    parse_TransactionType (CreateTransactionBody.type body) = Some ty /\
    input = CreateTransactionInput.mk
              (CreateTransactionBody.requestedBookId body)
              (CreateTransactionBody.ownerId body) ty
              (CreateTransactionBody.offeredBookId body) /\
    match ty with
    | Exchange => exists o, CreateTransactionBody.offeredBookId body = Some o /\ 0 < o
    | Free => CreateTransactionBody.offeredBookId body = None
    end.
Proof.
  unfold createTransactionSchema, createTransaction_refine.
  destruct (parse_TransactionType _) as [ty|];
    [|split; [done|by intros (_ & _ & ? & ? & _)]].
  destruct (Z.ltb_spec 0 (CreateTransactionBody.requestedBookId body));
    [|split; [done|intros [? _]; lia]].
  destruct (Z.ltb_spec 0 (CreateTransactionBody.ownerId body));
    [|split; [done|intros (_ & ? & _); lia]].
  simpl.
  destruct (CreateTransactionBody.offeredBookId body) as [o|]; simpl.
  - destruct (Z.ltb_spec 0 o); simpl.
    + destruct (Z.eqb_spec o 0); [lia|]. destruct ty.
      * split; [done|]. by intros (_ & _ & ? & [= <-] & _ & ?).
      * split.
        -- intros [= <-]. eauto 10.
        -- intros (_ & _ & ? & [= <-] & -> & _). done.
    + split; [done|]. intros (_ & _ & ? & [= <-] & _ & Hm).
      destruct ty; [done|]. destruct Hm as (? & [= <-] & ?). lia.
  - destruct ty.
    + split.
      * intros [= <-]. eauto 10.
      * intros (_ & _ & ? & [= <-] & -> & _). done.
    + split; [done|]. intros (_ & _ & ? & [= <-] & _ & (? & ? & _)). done.
Qed.

(** X2. [createTransaction] answers 201 only to an authenticated user
    who asks for an existing, available book of another member, names its
    owner and its availability type, and, for an exchange, offers an
    available book of their own other than the requested one; a Free
    request carries no offered book. *)
Theorem created_request_was_admissible db user body :
  code (snd (createTransaction db user body)) = 201 ->
  exists userId book,
    user = Some userId /\ userId <> 0 /\
    books db !! CreateTransactionBody.requestedBookId body = Some book /\
    Book.status book = "available"%string /\
    Book.ownerId book = CreateTransactionBody.ownerId body /\
    Book.ownerId book <> userId /\
    parse_TransactionType (CreateTransactionBody.type body)
      = Some (Book.availabilityType book) /\
    match Book.availabilityType book with
    | Exchange =>
        exists offered offeredBook,
          CreateTransactionBody.offeredBookId body = Some offered /\
          books db !! offered = Some offeredBook /\
          Book.ownerId offeredBook = userId /\
          Book.status offeredBook = "available"%string /\
          offered <> CreateTransactionBody.requestedBookId body
    | Free => CreateTransactionBody.offeredBookId body = None
    end.
Proof.
  intros (userId & input & E)%createTransaction_201.
  apply createTransaction_checks_inr in E
    as (Hu & Hs & (book & Hbook & Hav & Hown & Hnown & Hty) & Hex & _).
  apply truthy_Some in Hu as [-> Hu].
  apply createTransactionSchema_spec in Hs as (_ & _ & ty & Hp & -> & Hm).
  simpl in *. subst ty. exists userId, book.
  repeat (split; [done|]).
  destruct (Book.availabilityType book); [done|].
  destruct Hm as (o & Ho & Hpos). destruct Hex as (o' & ob & Hto & Hrest).
  rewrite Ho in Hto. apply truthy_Some in Hto as [[= <-] _]. eauto.
Qed.

(** X3. When [createTransaction] answers 201, one row is appended to the
    table: it takes the next id of the sequence, the caller as requester,
    the fields of the body and the status [pending], and it is the [data]
    of the answer.  The books it refers to exist and get the status
    [pending], their other columns unchanged; no other book and no other
    row is written. *)
Theorem created_request_effect db user body :
  code (snd (createTransaction db user body)) = 201 ->
  exists userId ty,
    user = Some userId /\
    parse_TransactionType (CreateTransactionBody.type body) = Some ty /\
    let new := Transaction.mk (transactions_seq db) userId
                 (CreateTransactionBody.requestedBookId body)
                 (CreateTransactionBody.ownerId body) ty
                 (CreateTransactionBody.offeredBookId body) pending in
    let db' := fst (createTransaction db user body) in
    data (snd (createTransaction db user body)) = Some new /\
    transactions db' = transactions db ++ [new] /\
    transactions_seq db' = transactions_seq db + 1 /\
    books_seq db' = books_seq db /\
    forall i,
      if references i new
      then exists b b', books db !! i = Some b /\ books db' !! i = Some b' /\
                        Book.status b' = "pending"%string /\ same_book b b'
      else books db' !! i = books db !! i.
Proof.
  intros (userId & input & E)%createTransaction_201.
  destruct (createTransaction_inr db user body userId input E) as [Hts Hbs].
  pose proof E as Hc. apply createTransaction_checks_inr in Hc
    as (Hu & Hs & (book & Hbook & _) & Hex & _).
  apply truthy_Some in Hu as [-> Hu].
  apply createTransactionSchema_spec in Hs as (_ & _ & ty & Hp & -> & Hm).
  assert (Hnew : new_transaction db userId
                   (CreateTransactionInput.mk
                      (CreateTransactionBody.requestedBookId body)
                      (CreateTransactionBody.ownerId body) ty
                      (CreateTransactionBody.offeredBookId body))
                 = Transaction.mk (transactions_seq db) userId
                     (CreateTransactionBody.requestedBookId body)
                     (CreateTransactionBody.ownerId body) ty
                     (CreateTransactionBody.offeredBookId body) pending).
  { unfold new_transaction. simpl. f_equal.
    destruct ty; [by rewrite Hm|]. destruct Hm as (o & -> & ?).
    apply truthy_nonzero. lia. }
  rewrite Hnew in Hts, Hbs. exists userId, ty.
  split; [done|]. split; [done|]. simpl.
  split; [|split; [done|split; [|split]]];
    [unfold createTransaction; rewrite E; simpl; by rewrite Hnew
    |unfold createTransaction; by rewrite E
    |unfold createTransaction; by rewrite E|].
  intros i. rewrite Hbs.
  destruct (references i _) eqn:Er; [|done].
  assert (exists b, books db !! i = Some b) as [b Hb].
  { apply references_spec in Er as [<-|Ho]; simpl in *; [eauto|].
    destruct ty; [by rewrite Hm in Ho|].
    destruct Hex as (o & ob & Hto & Hob & _).
    rewrite Ho in Hto. apply truthy_Some in Hto as [[= <-] _]. eauto. }
  exists b, (Book.set_status "pending" b). rewrite Hb.
  split; [done|]. split; [done|]. split; [reflexivity|apply same_book_set_status].
Qed.

(** X4. Nobody obtains a request for a book of their own: whatever the
    body, the answer is not 201 and nothing is written. *)
Theorem own_book_is_never_requested db user body book :
  books db !! CreateTransactionBody.requestedBookId body = Some book ->
  user = Some (Book.ownerId book) ->
  fst (createTransaction db user body) = db /\
  code (snd (createTransaction db user body)) <> 201.
Proof.
  intros Hbook ->.
  assert (Hno : code (snd (createTransaction db (Some (Book.ownerId book)) body))
                <> 201).
  { intros (u & input & E)%createTransaction_201.
    apply createTransaction_checks_inr in E
      as (Hu & Hs & (bk & Hbk & _ & _ & Hne & _) & _).
    apply truthy_Some in Hu as [[= <-] _].
    apply createTransactionSchema_spec in Hs as (_ & _ & ty & _ & -> & _).
    simpl in Hbk. rewrite Hbook in Hbk. injection Hbk as <-. done. }
  split; [|done]. revert Hno. unfold createTransaction.
  destruct (createTransaction_checks _ _ _) as [|[]]; [done|]. simpl. done.
Qed.

(** X5. [updateTransaction] answers 200 only when the caller owns the
    requested book of an existing pending request and the body asks for
    [approved] or [rejected]: the other three values of the status enum
    pass the schema and are then refused. *)
Theorem resolved_request_was_admissible db user id body :
  code (snd (updateTransaction db user id body)) = 200 ->
  exists userId tid x book,
    user = Some userId /\ userId <> 0 /\ id = Some tid /\ 0 < tid /\
    select_transaction tid (transactions db) = Some x /\
    Transaction.status x = pending /\
    books db !! Transaction.requestedBookId x = Some book /\
    Book.ownerId book = userId /\
    In (UpdateTransactionBody.status body) ["approved"; "rejected"]%string.
Proof.
  intros (tid & x & s & E)%updateTransaction_200.
  apply updateTransaction_checks_inr in E
    as (u & book & Hu & Hi & Hs & Hsel & Hbook & Hown & Hp & Hres).
  apply truthy_Some in Hu as [-> Hu]. apply truthy_Some in Hi as [-> Hi].
  exists u, tid, x, book. unfold updateTransactionSchema in Hs.
  destruct (Z.ltb_spec 0 tid); [|done].
  repeat (split; [done|]).
  revert Hs. unfold parse_TransactionStatus.
  destruct (String.eqb_spec (UpdateTransactionBody.status body) "available");
    [intros [= <-]; by destruct Hres|].
  destruct (String.eqb_spec (UpdateTransactionBody.status body) "pending");
    [intros [= <-]; by destruct Hres|].
  destruct (String.eqb_spec (UpdateTransactionBody.status body) "approved") as [->|];
    [by left|].
  destruct (String.eqb_spec (UpdateTransactionBody.status body) "rejected") as [->|];
    [by right; left|].
  destruct (String.eqb_spec (UpdateTransactionBody.status body) "shared");
    [intros [= <-]; by destruct Hres|done].
Qed.

(** ** Failures *)

(** X6. A request that is answered with an error writes nothing: every
    check of a handler comes before its first write, and a delete that
    the database refuses removes nothing. *)
Theorem failure_writes_nothing is_url db r :
  400 <= response_code is_url db r -> handle is_url db r = db.
Proof.
  destruct r as [u b|u i b|u i|u b|u i b]; simpl.
  - unfold createBook.
    destruct (match require (truthy u) _ with inl _ => _ | inr _ => _ end);
      simpl; [done|lia].
  - unfold updateBook.
    destruct (match require (truthy u) _ with inl _ => _ | inr _ => _ end)
      as [|[]]; simpl; [done|lia].
  - unfold deleteBook.
    destruct (match require (truthy u) _ with inl _ => _ | inr _ => _ end);
      simpl; [done|lia].
  - unfold createTransaction.
    destruct (createTransaction_checks db u b) as [|[]]; simpl; [done|lia].
  - destruct (updateTransaction_checks db u i b) as [|[[tid x] s]] eqn:E.
    + unfold updateTransaction. by rewrite E.
    + rewrite (updateTransaction_inr db u i b tid x s E). lia.
Qed.

(** X7. Without an authenticated user every handler answers 401, before
    it looks at the body or the database. *)
Theorem unauthenticated_is_refused is_url db r :
  truthy (caller r) = None ->
  response_code is_url db r = 401 /\ handle is_url db r = db.
Proof.
  destruct r as [u b|u i b|u i|u b|u i b]; simpl; intros Hu.
  - unfold createBook, require. by rewrite Hu.
  - unfold updateBook, require. by rewrite Hu.
  - unfold deleteBook, require. by rewrite Hu.
  - unfold createTransaction, createTransaction_checks, require. by rewrite Hu.
  - unfold updateTransaction, updateTransaction_checks, require. by rewrite Hu.
Qed.

(** ** Invariants of the rows *)

(** X8. In a reachable database a request carries an offered book exactly
    when its type is Exchange. *)
Theorem offered_book_iff_exchange is_url db x :
  reachable is_url db -> In x (transactions db) ->
  (Transaction.type x = Exchange <-> is_Some (Transaction.offeredBookId x)).
Proof. intros Hr%reachable_sound. by apply (offered_iff_exchange db Hr). Qed.

(** X9. In a reachable database the owner recorded in a request is never
    its requester. *)
Theorem requester_never_owner is_url db x :
  reachable is_url db -> In x (transactions db) ->
  Transaction.requesterId x <> Transaction.ownerId x.
Proof. intros Hr%reachable_sound. by apply (requester_is_not_owner db Hr). Qed.

(** X10. Of the five values of [transactionStatusEnum], a reachable
    database stores three: no row is ever [available], the default of the
    column, or [shared]. *)
Theorem stored_transaction_statuses is_url db x :
  reachable is_url db -> In x (transactions db) ->
  In (Transaction.status x) [pending; approved; rejected].
Proof. intros Hr%reachable_sound. by apply (transaction_status_known db Hr). Qed.

(** X11. The [status] column of [books], a free string, holds
    [available], [pending] or [approved] in a reachable database: a book
    never takes the status [rejected] of a request. *)
Theorem stored_book_statuses is_url db i b :
  reachable is_url db -> books db !! i = Some b ->
  In (Book.status b) ["available"; "pending"; "approved"]%string.
Proof. intros Hr%reachable_sound. by apply (book_status_known db Hr). Qed.

(** X12. Referential integrity: in a reachable database the requested
    book and the offered book of every request, resolved or not, are rows
    of [books]. *)
Theorem referenced_books_exist is_url db x i :
  reachable is_url db -> In x (transactions db) -> references i x = true ->
  is_Some (books db !! i).
Proof.
  intros Hr Hx [<-|Ho]%references_spec.
  - by apply (requested_book_exists db (reachable_consistent _ _ Hr)).
  - by apply (offered_book_exists db (reachable_sound _ _ Hr) x).
Qed.

(** X13. An approved book is approved for good: whatever request comes
    next, the book is still in the table and still [approved]. *)
Theorem approved_book_is_permanent is_url db i b r :
  reachable is_url db -> books db !! i = Some b ->
  Book.status b = "approved"%string ->
  exists b', books (handle is_url db r) !! i = Some b' /\
             Book.status b' = "approved"%string.
Proof.
  intros Hr Hb Hs.
  destruct (approved_has_request db (reachable_sound _ _ Hr) i b Hb Hs)
    as (x & Hx & Hax & <-).
  pose proof (reachable_consistent _ _ Hr) as Hdb.
  apply (approved_book _ (handle_consistent is_url db r Hdb)); [|done].
  apply resolved_row_stays; [done|done|congruence].
Qed.

(** X14. In a reachable database no book is involved in two pending
    requests, as requested or as offered book: a book can only be asked
    for or offered while it is [available]. *)
Theorem no_book_in_two_pending_requests is_url db x y i :
  reachable is_url db ->
  In x (transactions db) -> In y (transactions db) ->
  Transaction.status x = pending -> Transaction.status y = pending ->
  references i x = true -> references i y = true ->
  x = y.
Proof. intros Hr%reachable_consistent. by apply (pending_unique db Hr). Qed.

(** X15. In a reachable database [updateTransaction] writes no row but
    its target: the loop that rejects the other pending requests for the
    book finds none. *)
Theorem resolution_touches_one_row is_url db user id body y :
  reachable is_url db -> In y (transactions db) ->
  id <> Some (Transaction.id y) ->
  In y (transactions (fst (updateTransaction db user id body))).
Proof.
  intros Hr%reachable_consistent Hy Hne.
  destruct (updateTransaction_checks db user id body) as [|[[tid x] s]] eqn:E.
  { unfold updateTransaction. by rewrite E. }
  rewrite (updateTransaction_consistent_inr db Hr _ _ _ _ _ _ E). simpl.
  apply updateTransaction_checks_inr in E as (_ & _ & _ & Hi & _).
  apply truthy_Some in Hi as [-> _].
  apply in_update_transaction_status. exists y. split; [done|].
  destruct (Z.eqb_spec (Transaction.id y) tid); [congruence|done].
Qed.

(** ** Create, then reject *)

Lemma select_transaction_last i ts new :
  (forall x, In x ts -> Transaction.id x <> i) -> Transaction.id new = i ->
  select_transaction i (ts ++ [new]) = Some new.
Proof.
  intros Hts Hnew. unfold select_transaction.
  induction ts as [|x ts IH]; simpl.
  - by rewrite Hnew, Z.eqb_refl.
  - destruct (Z.eqb_spec (Transaction.id x) i) as [Heq|_].
    + destruct (Hts x); [by left|done].
    + apply IH. intros y Hy. apply Hts. by right.
Qed.

Lemma update_transaction_status_last i s ts new :
  (forall x, In x ts -> Transaction.id x <> i) -> Transaction.id new = i ->
  update_transaction_status i s (ts ++ [new]) = ts ++ [Transaction.set_status s new].
Proof.
  intros Hts Hnew. unfold update_transaction_status.
  rewrite map_app. simpl. rewrite Hnew, Z.eqb_refl. f_equal.
  rewrite <- (map_id ts) at 2. apply map_ext_in. intros x Hx.
  destruct (Z.eqb_spec (Transaction.id x) i); [by destruct (Hts x)|done].
Qed.

(** X16. Rejecting a request undoes its creation on the books: a request
    created in a reachable database makes its book [pending]; after the
    owner it names rejects it, the [books] table is what it was before
    the request, and the request, until then [pending], stays in the
    table with the status [rejected]. *)
Theorem reject_undoes_create is_url db user body :
  reachable is_url db ->
  code (snd (createTransaction db user body)) = 201 ->
  let created := createTransaction db user body in
  let result :=
    updateTransaction (fst created)
      (Some (CreateTransactionBody.ownerId body)) (Some (transactions_seq db))
      (UpdateTransactionBody.mk "rejected") in
  (exists b1, books (fst created) !! CreateTransactionBody.requestedBookId body
                = Some b1 /\
              Book.status b1 = "pending"%string) /\
  code (snd result) = 200 /\
  books (fst result) = books db /\
  exists new new',
    data (snd created) = Some new /\ Transaction.status new = pending /\
    transactions (fst result) = transactions db ++ [new'] /\
    Transaction.status new' = rejected /\ same_request new new'.
Proof.
  intros Hr%reachable_consistent (userId & input & E)%createTransaction_201.
  intros created result. subst created result.
  destruct (createTransaction_inr db user body userId input E) as [Hts Hbs].
  pose proof E as Hc. apply createTransaction_checks_inr in Hc
    as (_ & Hs & (book & Hbook & Hav & Hown & _) & Hex & _).
  apply createTransactionSchema_spec in Hs as (_ & Hopos & ty & _ & Hin & Hm).
  set (new := new_transaction db userId input) in *.
  set (db1 := fst (createTransaction db user body)) in *.
  assert (Hfresh : forall x, In x (transactions db) ->
            Transaction.id x <> transactions_seq db).
  { intros x Hx. pose proof (transaction_ids_drawn db Hr x Hx). lia. }
  assert (Hreq : Transaction.requestedBookId new
                 = CreateTransactionInput.requestedBookId input) by done.
  assert (E2 : updateTransaction_checks db1
                 (Some (CreateTransactionBody.ownerId body))
                 (Some (transactions_seq db)) (UpdateTransactionBody.mk "rejected")
               = inr (transactions_seq db, new, rejected)).
  { apply (updateTransaction_checks_pass _ _ _ _ _ _
             (Book.set_status "pending" book)); try done.
    - lia.
    - apply (sequence_positive db Hr).
    - rewrite Hts. by apply select_transaction_last.
    - rewrite Hbs, Hreq.
      assert (references (CreateTransactionInput.requestedBookId input) new = true)
        as -> by (apply references_spec; by left).
      by rewrite Hbook.
    - simpl. rewrite Hown, Hin. done. }
  split.
  { exists (Book.set_status "pending" book). split; [|reflexivity].
    rewrite Hbs.
    assert (CreateTransactionBody.requestedBookId body
            = CreateTransactionInput.requestedBookId input) as ->
      by (by rewrite Hin).
    assert (references (CreateTransactionInput.requestedBookId input) new = true)
      as -> by (apply references_spec; by left).
    by rewrite Hbook. }
  rewrite (updateTransaction_rejected _ _ _ _ _ _ E2).
  cbn [fst snd books transactions code success].
  split; [done|]. split.
  - apply map_eq. intros i.
    assert (Hrefs : references i new = true ->
              exists b, books db !! i = Some b /\ Book.status b = "available"%string).
    { intros [<-|Ho]%references_spec; [rewrite Hreq; eauto|].
      subst new. unfold new_transaction in Ho. simpl in Ho.
      rewrite Hin in Hex, Ho. simpl in Hex, Ho. destruct ty.
      - by rewrite Hm in Ho.
      - destruct Hex as (o & ob & Hto & Hob & _ & Hoav & _).
        rewrite Hto in Ho. injection Ho as <-. eauto. }
    assert (Ht : truthy (Transaction.offeredBookId new) = Transaction.offeredBookId new).
    { subst new. unfold new_transaction. simpl.
      destruct (CreateTransactionInput.offeredBookId input) as [z|]; [|done].
      simpl. destruct (Z.eqb_spec z 0); [done|]. simpl.
      by destruct (Z.eqb_spec z 0). }
    rewrite lookup_update_book_status, Ht.
    pose proof (references_spec i new) as Hspec.
    destruct (Transaction.offeredBookId new) as [o|];
      rewrite ?lookup_update_book_status, Hbs;
      destruct (references i new).
    + destruct (Hrefs eq_refl) as (b & -> & Hsb).
      repeat case_decide; simpl; f_equal; try (destruct b; simpl in *; by subst).
      destruct Hspec as [[?|?] _]; congruence.
    + repeat case_decide; try done; subst;
        destruct Hspec as [_ Hspec]; discriminate Hspec; auto.
    + destruct (Hrefs eq_refl) as (b & -> & Hsb).
      repeat case_decide; simpl; f_equal; try (destruct b; simpl in *; by subst).
      destruct Hspec as [[?|?] _]; congruence.
    + repeat case_decide; try done; subst;
        destruct Hspec as [_ Hspec]; discriminate Hspec; auto.
  - exists new, (Transaction.set_status rejected new).
    split; [unfold createTransaction; by rewrite E|].
    split; [reflexivity|].
    split; [fold db1; rewrite Hts; by apply update_transaction_status_last|].
    split; [reflexivity|apply same_request_set_status].
Qed.

(** ** getUserTransactions *)

Lemma in_join_requestedBook bs ts x b :
  In (x, b) (join_requestedBook bs ts) <->
  In x ts /\ bs !! Transaction.requestedBookId x = Some b.
Proof.
  unfold join_requestedBook. rewrite in_flat_map. split.
  - intros (y & Hy & Hin). destruct (bs !! Transaction.requestedBookId y) eqn:E;
      [|done]. destruct Hin as [[= -> ->]|[]]. done.
  - intros [Hx Hb]. exists x. split; [done|]. rewrite Hb. by left.
Qed.

Lemma getUserTransactions_In db user u l e :
  truthy user = Some u ->
  data (getUserTransactions db user) = Some l ->
  In e l <->
  exists x b, In x (transactions db) /\
    books db !! Transaction.requestedBookId x = Some b /\
    (Transaction.ownerId x = u \/ Transaction.requesterId x = u) /\
    e = UserTransaction.mk x b
          (if Transaction.ownerId x =? u then "incoming"%string else "outgoing"%string).
Proof.
  unfold getUserTransactions. intros ->. simpl. intros [= <-].
  rewrite in_map_iff. split.
  - intros ([x b] & <- & Hin). rewrite <- in_rev in Hin.
    apply filter_In in Hin as [Hin Hf]. apply in_join_requestedBook in Hin as [Hx Hb].
    simpl in Hf. apply orb_true_iff in Hf. rewrite !Z.eqb_eq in Hf.
    exists x, b. simpl. split_and!; done.
  - intros (x & b & Hx & Hb & Hu & ->). exists (x, b). split; [done|].
    rewrite <- in_rev. apply filter_In. split; [by apply in_join_requestedBook|].
    simpl. apply orb_true_iff. by rewrite !Z.eqb_eq.
Qed.

(** X17. For an authenticated user of a reachable database
    [getUserTransactions] answers 200 with a list that holds exactly the
    requests the user made or is recorded as owner of: the join with
    [books] drops none of them. *)
Theorem user_transactions_are_complete is_url db user u :
  reachable is_url db -> truthy user = Some u ->
  exists l,
    getUserTransactions db user
      = success 200 "User transactions retrieved successfully" (Some l) /\
    forall x, In x (map UserTransaction.transaction l) <->
              In x (transactions db) /\
              (Transaction.ownerId x = u \/ Transaction.requesterId x = u).
Proof.
  intros Hr%reachable_consistent Hu.
  destruct (data (getUserTransactions db user)) as [l|] eqn:El;
    [|by unfold getUserTransactions in El; rewrite Hu in El].
  exists l. split.
  { unfold getUserTransactions in *. rewrite Hu in *. simpl in *. congruence. }
  intros x. rewrite in_map_iff. split.
  - intros (e & <- & He).
    apply (getUserTransactions_In db user u l e Hu El) in He
      as (y & b & Hy & _ & Hyu & ->). done.
  - intros [Hx Hxu].
    destruct (requested_book_exists db Hr x Hx) as [b Hb].
    exists (UserTransaction.mk x b
              (if Transaction.ownerId x =? u then "incoming"%string
               else "outgoing"%string)).
    split; [done|]. apply (getUserTransactions_In db user u l _ Hu El).
    by exists x, b.
Qed.

(** X18. Every entry of the list of [getUserTransactions] carries the
    current row of the requested book, and in a reachable database its
    label tells the two roles apart: [incoming] exactly when the user is
    the recorded owner, [outgoing] exactly when the user is the
    requester. *)
Theorem user_transaction_labels is_url db user u l e :
  reachable is_url db -> truthy user = Some u ->
  data (getUserTransactions db user) = Some l -> In e l ->
  let x := UserTransaction.transaction e in
  In x (transactions db) /\
  books db !! Transaction.requestedBookId x = Some (UserTransaction.requestedBook e) /\
  (UserTransaction.transactionType e = "incoming"%string <-> Transaction.ownerId x = u) /\
  (UserTransaction.transactionType e = "outgoing"%string <-> Transaction.requesterId x = u).
Proof.
  intros Hr%reachable_sound Hu El He.
  apply (getUserTransactions_In db user u l e Hu El) in He
    as (x & b & Hx & Hb & Hxu & ->). simpl.
  pose proof (requester_is_not_owner db Hr x Hx) as Hne.
  split; [done|]. split; [done|].
  destruct (Z.eqb_spec (Transaction.ownerId x) u) as [Ho|Ho].
  - split; split; try done. intros Hq. congruence.
  - split; split; try done. by destruct Hxu.
Qed.

(** X19. Who may resolve a request and who is shown it are decided on
    different columns: a user who owns the requested book of a pending
    request, but is neither its recorded owner nor its requester, can
    approve the request although [getUserTransactions] does not list it
    for them. *)
Theorem resolver_may_not_see_request db u x b l :
  In x (transactions db) ->
  List.NoDup (map Transaction.id (transactions db)) ->
  0 < Transaction.id x ->
  Transaction.status x = pending ->
  books db !! Transaction.requestedBookId x = Some b ->
  Book.ownerId b = u -> u <> 0 ->
  Transaction.ownerId x <> u -> Transaction.requesterId x <> u ->
  data (getUserTransactions db (Some u)) = Some l ->
  code (snd (updateTransaction db (Some u) (Some (Transaction.id x))
               (UpdateTransactionBody.mk "approved"))) = 200 /\
  ~ In x (map UserTransaction.transaction l).
Proof.
  intros Hx Hnd Hid Hp Hb Hown Hu Hno Hnr El. split.
  - eapply updateTransaction_inr.
    apply (updateTransaction_checks_pass _ _ _ _ approved x b); try done.
    by apply select_transaction_In.
  - rewrite in_map_iff. intros (e & <- & He).
    apply (getUserTransactions_In db (Some u) u l e) in He
      as (y & b' & _ & _ & Hyu & ->); [|by apply truthy_nonzero|done].
    simpl in *. by destruct Hyu.
Qed.

(** ** The book routes *)

Lemma optional_Some_Some {A B} (p : A -> option B) f b :
  optional p f = Some (Some b) -> exists a, f = Some a /\ p a = Some b.
Proof.
  unfold optional. destruct f as [a|]; [|done].
  destruct (p a) eqn:E; [|done]. intros [= <-]. eauto.
Qed.

Lemma string_between_Some lo hi s s' : string_between lo hi s = Some s' -> s' = s.
Proof. unfold string_between. destruct (_ && _); [|done]. by intros [= <-]. Qed.

Lemma bookSchema_Some is_url body d :
  bookSchema is_url body = Some d ->
  exists t a g ag c av o ty,
    d = BookInput.mk (Some t) (Some a) (Some g) (Some ag) (Some c) (Some ty) (Some o) /\
    BookBody.title body = Some t /\ BookBody.author body = Some a /\
    BookBody.genre body = Some g /\ BookBody.ageGroup body = Some ag /\
    BookBody.coverImage body = Some c /\
    BookBody.availabilityType body = Some av /\ parse_TransactionType av = Some ty /\
    BookBody.ownerId body = Some o.
Proof.
  unfold bookSchema, bookSchema_partial.
  destruct (optional _ (BookBody.title body)) as [t|] eqn:Et; [|done].
  destruct (optional _ (BookBody.author body)) as [a|] eqn:Ea; [|done].
  destruct (optional _ (BookBody.genre body)) as [g|] eqn:Eg; [|done].
  destruct (optional _ (BookBody.ageGroup body)) as [ag|] eqn:Eag; [|done].
  destruct (optional _ (BookBody.coverImage body)) as [c|] eqn:Ec; [|done].
  destruct (optional _ (BookBody.availabilityType body)) as [av|] eqn:Eav; [|done].
  destruct (optional _ (BookBody.ownerId body)) as [o|] eqn:Eo; [|done].
  destruct (BookInput.complete _) eqn:Hc; [|done]. intros [= <-].
  unfold BookInput.complete in Hc. simpl in Hc.
  destruct t as [t|], a as [a|], g as [g|], ag as [ag|], c as [c|],
           av as [ty|], o as [o|]; try done.
  apply optional_Some_Some in Et as (t0 & Ht & ->%string_between_Some).
  apply optional_Some_Some in Ea as (a0 & Ha & ->%string_between_Some).
  apply optional_Some_Some in Eg as (g0 & Hg & ->%string_between_Some).
  apply optional_Some_Some in Eag as (ag0 & Hag & ->%string_between_Some).
  apply optional_Some_Some in Ec as (c0 & Hc0 & Hurl).
  destruct (is_url c0); [|done]. injection Hurl as <-.
  apply optional_Some_Some in Eav as (av0 & Hav & Hty).
  apply optional_Some_Some in Eo as (o0 & Ho & Hpos).
  destruct (1 <=? o0); [|done]. injection Hpos as <-.
  exists t0, a0, g0, ag0, c0, av0, o0, ty. done.
Qed.

Lemma createBook_201 is_url db user body :
  code (snd (createBook is_url db user body)) = 201 ->
  exists u d,
    truthy user = Some u /\
    bookSchema is_url (BookBody.with_ownerId u body) = Some d /\
    createBook is_url db user body
    = (mkDb (<[books_seq db := new_book d]> (books db)) (transactions db)
            (books_seq db + 1) (transactions_seq db),
       success 201 "Book created successfully" (Some (new_book d))).
Proof.
  unfold createBook, require.
  destruct (truthy user) as [u|]; simpl; [|done].
  destruct (bookSchema is_url _) as [d|] eqn:Ed; simpl; [|done]. by exists u, d.
Qed.

Lemma updateBook_cases is_url db user id body :
  (exists r, updateBook is_url db user id body = (db, r) /\ 400 <= code r) \/
  exists u i b patch,
    truthy user = Some u /\ truthy id = Some i /\ books db !! i = Some b /\
    Book.ownerId b = u /\ bookSchema_partial is_url body = Some patch /\
    updateBook is_url db user id body
    = (mkDb (alter (set_book patch) i (books db)) (transactions db)
            (books_seq db) (transactions_seq db),
       success 200 "Book updated successfully"
               (alter (set_book patch) i (books db) !! i)).
Proof.
  unfold updateBook, require, reject_if.
  destruct (truthy user) as [u|]; simpl; [|left; eexists; split; [done|simpl; lia]].
  destruct (truthy id) as [i|]; simpl; [|left; eexists; split; [done|simpl; lia]].
  destruct (books db !! i) as [b|] eqn:Eb; simpl;
    [|left; eexists; split; [done|simpl; lia]].
  destruct (Z.eqb_spec (Book.ownerId b) u) as [Ho|Ho]; simpl;
    [|left; eexists; split; [done|simpl; lia]].
  destruct (bookSchema_partial is_url body) as [patch|] eqn:Ep; simpl;
    [|left; eexists; split; [done|simpl; lia]].
  right. exists u, i, b, patch. done.
Qed.

Lemma deleteBook_cases db user id :
  (exists r, deleteBook db user id = (db, r) /\ 400 <= code r) \/
  exists u i b,
    truthy user = Some u /\ truthy id = Some i /\ books db !! i = Some b /\
    Book.ownerId b = u /\
    (forall x, In x (transactions db) -> references i x = false) /\
    deleteBook db user id
    = (mkDb (delete i (books db)) (transactions db)
            (books_seq db) (transactions_seq db),
       success 200 "Book deleted successfully" None).
Proof.
  unfold deleteBook, require, reject_if.
  destruct (truthy user) as [u|]; simpl; [|left; eexists; split; [done|simpl; lia]].
  destruct (truthy id) as [i|]; simpl; [|left; eexists; split; [done|simpl; lia]].
  destruct (books db !! i) as [b|] eqn:Eb; simpl;
    [|left; eexists; split; [done|simpl; lia]].
  destruct (Z.eqb_spec (Book.ownerId b) u) as [Ho|Ho]; simpl;
    [|left; eexists; split; [done|simpl; lia]].
  destruct (existsb (references i) (transactions db)) eqn:Ex; simpl;
    [left; eexists; split; [done|simpl; lia]|].
  right. exists u, i, b. split_and!; try done.
  intros x Hx. destruct (references i x) eqn:Er; [|done].
  assert (existsb (references i) (transactions db) = true); [|congruence].
  apply existsb_exists. eauto.
Qed.

(** X20. [createBook] overrides the [ownerId] of the body with the caller
    and never reads its [status]: whatever the two keys hold, the call
    does the same. *)
Theorem createBook_ignores_owner_and_status is_url db user body o s :
  createBook is_url db user
    (BookBody.mk (BookBody.title body) (BookBody.author body) (BookBody.genre body)
                 (BookBody.ageGroup body) (BookBody.coverImage body)
                 (BookBody.availabilityType body) o s)
  = createBook is_url db user body.
Proof. unfold createBook. by destruct (truthy user). Qed.

(** X21. When [createBook] answers 201 in a reachable database, the row
    it returns carries the six fields of the body, belongs to the caller
    and is [available]; it is stored under the next id of the sequence,
    which no book had, and nothing else changes. *)
Theorem created_book_effect is_url db user body :
  reachable is_url db ->
  code (snd (createBook is_url db user body)) = 201 ->
  exists u b av,
    truthy user = Some u /\
    data (snd (createBook is_url db user body)) = Some b /\
    Book.ownerId b = u /\ Book.status b = "available"%string /\
    BookBody.title body = Some (Book.title b) /\
    BookBody.author body = Some (Book.author b) /\
    BookBody.genre body = Some (Book.genre b) /\
    BookBody.ageGroup body = Some (Book.ageGroup b) /\
    BookBody.coverImage body = Some (Book.coverImage b) /\
    BookBody.availabilityType body = Some av /\
    parse_TransactionType av = Some (Book.availabilityType b) /\
    books db !! books_seq db = None /\
    fst (createBook is_url db user body)
    = mkDb (<[books_seq db := b]> (books db)) (transactions db)
           (books_seq db + 1) (transactions_seq db).
Proof.
  intros Hr%reachable_consistent (u & d & Hu & Hd & ->)%createBook_201.
  apply bookSchema_Some in Hd
    as (t & a & g & ag & c & av & o & ty & -> & Ht & Ha & Hg & Hag & Hc & Hav & Hty & Ho).
  simpl in *. injection Ho as <-.
  exists u, (new_book (BookInput.mk (Some t) (Some a) (Some g) (Some ag) (Some c)
                                    (Some ty) (Some u))), av.
  split_and!; try done.
  destruct (books db !! books_seq db) eqn:E; [|done].
  pose proof (book_ids_drawn db Hr (books_seq db)) as Hlt.
  rewrite E in Hlt. specialize (Hlt ltac:(eauto)). lia.
Qed.

(** X22. The book routes never change or remove the book of another
    member: in a reachable database a book whose owner is not the caller
    is the same row after any request of [POST], [PATCH] or [DELETE
    /books]. *)
Theorem other_members_books_are_safe is_url db r i b :
  reachable is_url db -> is_transaction_request r = false ->
  books db !! i = Some b -> caller r <> Some (Book.ownerId b) ->
  books (handle is_url db r) !! i = Some b.
Proof.
  intros Hr%reachable_consistent Ht Hb Hc.
  destruct r as [u bd|u j bd|u j|u bd|u j bd]; try done; simpl in *.
  - unfold createBook.
    destruct (match require (truthy u) _ with inl _ => _ | inr _ => _ end);
      [done|]. simpl.
    rewrite lookup_insert_ne; [done|].
    pose proof (book_ids_drawn db Hr i ltac:(eauto)). lia.
  - destruct (updateBook_cases is_url db u j bd)
      as [(r & -> & _)|(v & k & b' & patch & Hu & Hk & Hb' & Ho & _ & ->)]; [done|].
    simpl. rewrite lookup_alter_ne; [done|]. intros ->.
    apply truthy_Some in Hu as [-> _]. congruence.
  - destruct (deleteBook_cases db u j)
      as [(r & -> & _)|(v & k & b' & Hu & Hk & Hb' & Ho & _ & ->)]; [done|].
    simpl. rewrite lookup_delete_ne; [done|]. intros ->.
    apply truthy_Some in Hu as [-> _]. congruence.
Qed.

(** X23. [updateBook] is idempotent on the database: sending the same
    request a second time changes nothing more, also when the first one
    gave the book away. *)
Theorem updateBook_is_idempotent is_url db user id body :
  fst (updateBook is_url (fst (updateBook is_url db user id body)) user id body)
  = fst (updateBook is_url db user id body).
Proof.
  destruct (updateBook_cases is_url db user id body)
    as [(r & E & _)|(u & i & b & patch & Hu & Hi & Hb & Ho & Hp & E)].
  { rewrite E. simpl. by rewrite E. }
  rewrite E. simpl.
  set (db1 := mkDb _ _ _ _).
  destruct (updateBook_cases is_url db1 user id body)
    as [(r & E1 & _)|(u1 & i1 & b1 & patch1 & Hu1 & Hi1 & Hb1 & Ho1 & Hp1 & E1)];
    rewrite E1; [done|]. simpl.
  assert (i1 = i) as -> by congruence.
  assert (patch1 = patch) as -> by congruence.
  subst db1. simpl. f_equal. apply map_eq. intros k.
  rewrite !lookup_alter. repeat case_decide; try done.
  destruct (books db !! _) as [b0|]; [|done]. simpl. f_equal.
  unfold set_book. simpl.
  by destruct (BookInput.title patch), (BookInput.author patch),
    (BookInput.genre patch), (BookInput.ageGroup patch),
    (BookInput.coverImage patch), (BookInput.availabilityType patch),
    (BookInput.ownerId patch).
Qed.

(** X24. When [deleteBook] answers 200, the book belonged to the caller
    and no request referred to it; its row is removed and nothing else
    is; from then on [deleteBook] and [updateBook] answer 404 for that
    id. *)
Theorem deleted_book_is_gone is_url db user id :
  code (snd (deleteBook db user id)) = 200 ->
  let db1 := fst (deleteBook db user id) in
  (exists u i b,
     truthy user = Some u /\ truthy id = Some i /\
     books db !! i = Some b /\ Book.ownerId b = u /\
     (forall x, In x (transactions db) -> references i x = false) /\
     db1 = mkDb (delete i (books db)) (transactions db)
                (books_seq db) (transactions_seq db)) /\
  code (snd (deleteBook db1 user id)) = 404 /\
  forall body, code (snd (updateBook is_url db1 user id body)) = 404.
Proof.
  intros Hc db1. subst db1.
  destruct (deleteBook_cases db user id)
    as [(r & E & Hr)|(u & i & b & Hu & Hi & Hb & Ho & Hno & E)].
  { rewrite E in Hc. simpl in Hc. lia. }
  rewrite E. simpl. split; [by exists u, i, b|].
  split; [|intros body]; unfold deleteBook, updateBook, require;
    rewrite Hu, Hi; simpl; by rewrite lookup_delete_eq.
Qed.

Lemma row_persists is_url db r x :
  consistent db -> In x (transactions db) ->
  exists s, In (Transaction.set_status s x) (transactions (handle is_url db r)) /\
            (Transaction.status x <> pending -> s = Transaction.status x).
Proof.
  intros Hdb Hx.
  assert (Hsame : Transaction.set_status (Transaction.status x) x = x)
    by by destruct x.
  destruct r as [u bd|u j bd|u j|u bd|u j bd]; simpl.
  - exists (Transaction.status x). rewrite Hsame. split; [|done].
    unfold createBook.
    by destruct (match require (truthy u) _ with inl _ => _ | inr _ => _ end).
  - exists (Transaction.status x). rewrite Hsame. split; [|done].
    by destruct (updateBook_cases is_url db u j bd)
      as [(r & -> & _)|(? & ? & ? & ? & _ & _ & _ & _ & _ & ->)].
  - exists (Transaction.status x). rewrite Hsame. split; [|done].
    by destruct (deleteBook_cases db u j)
      as [(r & -> & _)|(? & ? & ? & _ & _ & _ & _ & _ & ->)].
  - exists (Transaction.status x). rewrite Hsame. split; [|done].
    destruct (createTransaction_checks db u bd) as [|[v input]] eqn:E.
    { unfold createTransaction. by rewrite E. }
    destruct (createTransaction_inr db u bd v input E) as [-> _].
    apply in_or_app. by left.
  - destruct (updateTransaction_checks db u j bd) as [|[[tid y] s]] eqn:E.
    { exists (Transaction.status x). rewrite Hsame. split; [|done].
      unfold updateTransaction. by rewrite E. }
    rewrite (updateTransaction_consistent_inr db Hdb _ _ _ _ _ _ E). simpl.
    apply updateTransaction_checks_inr in E
      as (_ & _ & _ & _ & _ & Hsel & _ & _ & Hp & _).
    apply select_transaction_Some in Hsel as [Hy Hid].
    destruct (Z.eqb_spec (Transaction.id x) tid) as [Heq|Hne].
    + assert (x = y) as ->.
      { eapply transaction_ids_inj; eauto; [apply Hdb|congruence]. }
      exists s. split; [|congruence].
      apply in_update_transaction_status. exists y. by rewrite Hid, Z.eqb_refl.
    + exists (Transaction.status x). rewrite Hsame. split; [|done].
      apply in_update_transaction_status. exists x. split; [done|].
      by destruct (Z.eqb_spec (Transaction.id x) tid).
Qed.

(** X25. No request is ever removed or rewritten: after any request to
    the server, a row of a reachable [transactions] table is still there
    with the same id, parties, books and type; only its status may have
    changed, and only if it was [pending]. *)
Theorem requests_are_never_deleted is_url db r x :
  reachable is_url db -> In x (transactions db) ->
  exists s, In (Transaction.set_status s x) (transactions (handle is_url db r)) /\
            (Transaction.status x <> pending -> s = Transaction.status x).
Proof. intros Hr%reachable_consistent. by apply row_persists. Qed.

(** X26. A book that a request refers to, as requested or as offered
    book, is never deleted, whatever the state of the request: it is
    still in the table after any request to the server. *)
Theorem referenced_book_is_never_deleted is_url db r x i :
  reachable is_url db -> In x (transactions db) -> references i x = true ->
  is_Some (books (handle is_url db r) !! i).
Proof.
  intros Hr Hx Hi.
  destruct (row_persists is_url db r x (reachable_consistent _ _ Hr) Hx)
    as (s & Hin & _).
  pose proof (reachable_handle is_url db r Hr) as Hr'.
  apply references_spec in Hi as [<-|Ho].
  - apply (requested_book_exists _ (reachable_consistent _ _ Hr') _ Hin).
  - by apply (offered_book_exists _ (reachable_sound _ _ Hr') _ i Hin).
Qed.

(** X27. Deleting undoes creating: when [createBook] answers 201 in a
    reachable database whose sequence of book ids is positive, the
    caller can delete the new book at once, and the [books] table is
    then what it was before; the id is not given again. *)
Theorem delete_undoes_create is_url db user body :
  reachable is_url db -> 0 < books_seq db ->
  code (snd (createBook is_url db user body)) = 201 ->
  let db1 := fst (createBook is_url db user body) in
  deleteBook db1 user (Some (books_seq db))
  = (mkDb (books db) (transactions db) (books_seq db + 1) (transactions_seq db),
     success 200 "Book deleted successfully" None).
Proof.
  intros Hr Hseq (u & d & Hu & Hd & ->)%createBook_201. simpl.
  pose proof (reachable_consistent _ _ Hr) as Hdb.
  apply bookSchema_Some in Hd
    as (t & a & g & ag & c & av & o & ty & -> & _ & _ & _ & _ & _ & _ & _ & Ho).
  simpl in Ho. injection Ho as <-.
  assert (Hnone : books db !! books_seq db = None).
  { destruct (books db !! books_seq db) eqn:E; [|done].
    pose proof (book_ids_drawn db Hdb (books_seq db)) as Hlt.
    rewrite E in Hlt. specialize (Hlt ltac:(eauto)). lia. }
  assert (Hex : existsb (references (books_seq db)) (transactions db) = false).
  { apply not_true_iff_false. intros (x & Hx & Hi)%existsb_exists.
    assert (is_Some (books db !! books_seq db)) as [? ?]; [|congruence].
    apply references_spec in Hi as [<-|Ho].
    - by apply (requested_book_exists db Hdb).
    - by apply (offered_book_exists db (reachable_sound _ _ Hr) x). }
  unfold deleteBook, require, reject_if. rewrite Hu. simpl.
  destruct (Z.eqb_spec (books_seq db) 0); [lia|]. simpl.
  rewrite lookup_insert_eq. simpl. rewrite Z.eqb_refl. simpl.
  rewrite Hex. simpl. by rewrite delete_insert_eq, delete_id.
Qed.

(** ** The further properties at the scenarios *)

Lemma reading_room_initial : initial reading_room.
Proof.
  split; [done|]. split; [done|]. intros i b. unfold reading_room. simpl.
  rewrite !lookup_insert_Some, lookup_empty.
  intros [[<- <-]|[_ [[<- <-]|[_ [[<- <-]|[_ ?]]]]]]; done.
Qed.

Lemma two_requests_reachable is_url : reachable is_url two_requests.
Proof.
  apply (reachable_handle is_url _ (POST_transaction (Some 2) free_request)).
  apply (reachable_handle is_url reading_room
           (POST_transaction (Some 2) exchange_request)).
  apply reachable_initial, reading_room_initial.
Qed.

(** X2, at the shelf: member 2 asks for book 1 and offers book 2. *)
Lemma created_request_was_admissible_witness :
  exists userId book,
    Some 2 = Some userId /\ userId <> 0 /\
    books shelf !! 1 = Some book /\ Book.status book = "available"%string.
Proof.
  destruct (created_request_was_admissible shelf (Some 2) exchange_request eq_refl)
    as (u & b & Hu & Hne & Hb & Hav & _).
  exists u, b. repeat split; assumption.
Defined.

(** X3, at the shelf: the exchange request becomes the only row, and
    book 2, which it offers and which was available, is pending. *)
Lemma created_request_effect_witness :
  Book.status <$> books shelf !! 2 = Some "available"%string /\
  exists userId ty b',
    Some 2 = Some userId /\
    transactions exchange_requested
    = [Transaction.mk 1 userId 1 1 ty (Some 2) pending] /\
    books exchange_requested !! 2 = Some b' /\
    Book.status b' = "pending"%string.
Proof.
  split; [reflexivity|].
  destruct (created_request_effect shelf (Some 2) exchange_request eq_refl)
    as (u & ty & Hu & _ & _ & Hts & _ & _ & Hbooks).
  destruct (Hbooks 2) as (b & b' & _ & Hb' & Hst & _).
  exists u, ty, b'. split; [exact Hu|]. split; [exact Hts|].
  split; [exact Hb'|exact Hst].
Defined.

(** X4, at the shelf: member 1 asks for book 1. *)
Lemma own_book_is_never_requested_witness :
  fst (createTransaction shelf (Some 1) own_book_request) = shelf /\
  code (snd (createTransaction shelf (Some 1) own_book_request)) <> 201.
Proof.
  apply (own_book_is_never_requested shelf (Some 1) own_book_request
           (a_book Exchange 1) eq_refl eq_refl).
Defined.

(** X5, at the exchange request: member 1 approves. *)
Lemma resolved_request_was_admissible_witness :
  exists userId tid x book,
    Some 1 = Some userId /\ userId <> 0 /\ Some 1 = Some tid /\ 0 < tid /\
    select_transaction tid (transactions exchange_requested) = Some x /\
    Transaction.status x = pending /\
    books exchange_requested !! Transaction.requestedBookId x = Some book /\
    Book.ownerId book = userId /\
    In "approved"%string ["approved"; "rejected"]%string.
Proof.
  apply (resolved_request_was_admissible exchange_requested (Some 1) (Some 1)
           (UpdateTransactionBody.mk "approved") eq_refl).
Defined.

(** X6, at the shelf: the request of member 1 for their own book. *)
Lemma failure_writes_nothing_witness :
  handle (fun _ => true) shelf (POST_transaction (Some 1) own_book_request) = shelf.
Proof.
  apply (failure_writes_nothing (fun _ => true) shelf
           (POST_transaction (Some 1) own_book_request)).
  vm_compute. discriminate.
Defined.

(** X7, at the shelf: the user id 0 counts as no user. *)
Lemma unauthenticated_is_refused_witness :
  response_code (fun _ => true) shelf (DELETE_books (Some 0) (Some 1)) = 401 /\
  handle (fun _ => true) shelf (DELETE_books (Some 0) (Some 1)) = shelf.
Proof.
  apply (unauthenticated_is_refused (fun _ => true) shelf
           (DELETE_books (Some 0) (Some 1)) eq_refl).
Defined.

(** X8, at the exchange request. *)
Lemma offered_book_iff_exchange_witness :
  Transaction.type the_request = Exchange
  <-> is_Some (Transaction.offeredBookId the_request).
Proof.
  apply (offered_book_iff_exchange (fun _ => true) exchange_requested the_request
           (exchange_requested_reachable _) (or_introl eq_refl)).
Defined.

(** X9, at the exchange request. *)
Lemma requester_never_owner_witness : 2 <> 1.
Proof.
  apply (requester_never_owner (fun _ => true) exchange_requested the_request
           (exchange_requested_reachable _) (or_introl eq_refl)).
Defined.

(** X10, at the approved exchange. *)
Lemma stored_transaction_statuses_witness :
  In approved [pending; approved; rejected].
Proof.
  apply (stored_transaction_statuses (fun _ => true) exchange_approved
           (Transaction.set_status approved the_request)
           (exchange_approved_reachable _) (or_introl eq_refl)).
Defined.

(** X11, at the approved exchange: the offered book 2. *)
Lemma stored_book_statuses_witness :
  In "pending"%string ["available"; "pending"; "approved"]%string.
Proof.
  apply (stored_book_statuses (fun _ => true) exchange_approved 2
           (Book.set_status "pending" (a_book Exchange 2))
           (exchange_approved_reachable _) eq_refl).
Defined.

(** X12, at the exchange request: the offered book 2. *)
Lemma referenced_books_exist_witness :
  is_Some (books exchange_requested !! 2).
Proof.
  apply (referenced_books_exist (fun _ => true) exchange_requested the_request 2
           (exchange_requested_reachable _) (or_introl eq_refl) eq_refl).
Defined.

(** X13, at the approved exchange: member 1 tries to delete book 1. *)
Lemma approved_book_is_permanent_witness :
  exists b',
    books (handle (fun _ => true) exchange_approved (DELETE_books (Some 1) (Some 1)))
      !! 1 = Some b' /\
    Book.status b' = "approved"%string.
Proof.
  apply (approved_book_is_permanent (fun _ => true) exchange_approved 1
           (Book.set_status "approved" (a_book Exchange 1))
           (DELETE_books (Some 1) (Some 1))
           (exchange_approved_reachable _) eq_refl eq_refl).
Defined.

(** X14, at the exchange request. *)
Lemma no_book_in_two_pending_requests_witness : the_request = the_request.
Proof.
  apply (no_book_in_two_pending_requests (fun _ => true) exchange_requested
           the_request the_request 1
           (exchange_requested_reachable _) (or_introl eq_refl) (or_introl eq_refl)
           eq_refl eq_refl eq_refl eq_refl).
Defined.

(** X15, at the two requests: member 1 approves request 1, and request
    2 is the row it was. *)
Lemma resolution_touches_one_row_witness :
  code (snd (updateTransaction two_requests (Some 1) (Some 1)
               (UpdateTransactionBody.mk "approved"))) = 200 /\
  In the_free_request
     (transactions (fst (updateTransaction two_requests (Some 1) (Some 1)
                           (UpdateTransactionBody.mk "approved")))).
Proof.
  split; [reflexivity|].
  apply (resolution_touches_one_row (fun _ => true) two_requests
           (Some 1) (Some 1) (UpdateTransactionBody.mk "approved") the_free_request
           (two_requests_reachable _) (or_intror (or_introl eq_refl))).
  simpl. discriminate.
Defined.

(** X16, at the shelf: the exchange request is made and rejected. *)
Lemma reject_undoes_create_witness :
  (exists b1, books exchange_requested !! 1 = Some b1 /\
              Book.status b1 = "pending"%string) /\
  books (fst (updateTransaction exchange_requested (Some 1) (Some 1)
                (UpdateTransactionBody.mk "rejected")))
  = books shelf /\
  exists new',
    transactions (fst (updateTransaction exchange_requested (Some 1) (Some 1)
                         (UpdateTransactionBody.mk "rejected")))
    = [new'] /\
    Transaction.status new' = rejected.
Proof.
  destruct (reject_undoes_create (fun _ => true) shelf (Some 2) exchange_request
              (reachable_initial _ shelf shelf_initial) eq_refl)
    as (Hpending & _ & Hbooks & new & new' & _ & _ & Hts & Hst & _).
  split; [exact Hpending|]. split; [exact Hbooks|].
  exists new'. split; [exact Hts|exact Hst].
Defined.

(** X17, at the exchange request: the list of member 2. *)
Lemma user_transactions_are_complete_witness :
  exists l,
    getUserTransactions exchange_requested (Some 2)
      = success 200 "User transactions retrieved successfully" (Some l) /\
    forall x, In x (map UserTransaction.transaction l) <->
              In x (transactions exchange_requested) /\
              (Transaction.ownerId x = 2 \/ Transaction.requesterId x = 2).
Proof.
  apply (user_transactions_are_complete (fun _ => true) exchange_requested
           (Some 2) 2 (exchange_requested_reachable _) eq_refl).
Defined.

(** X18, at the exchange request: the entry in the list of member 2. *)
Lemma user_transaction_labels_witness :
  "outgoing"%string = "outgoing"%string <-> Transaction.requesterId the_request = 2.
Proof.
  destruct (user_transaction_labels (fun _ => true) exchange_requested (Some 2) 2
              [UserTransaction.mk the_request
                 (Book.set_status "pending" (a_book Exchange 1)) "outgoing"]
              (UserTransaction.mk the_request
                 (Book.set_status "pending" (a_book Exchange 1)) "outgoing")
              (exchange_requested_reachable _) eq_refl eq_refl (or_introl eq_refl))
    as (_ & _ & _ & Hout).
  exact Hout.
Defined.

(** X19, after the hand-over: member 3 owns book 1 and has an empty
    list. *)
Lemma resolver_may_not_see_request_witness :
  code (snd (updateTransaction (handed_over (fun _ => true)) (Some 3) (Some 1)
               (UpdateTransactionBody.mk "approved"))) = 200 /\
  ~ In the_request (map UserTransaction.transaction []).
Proof.
  apply (resolver_may_not_see_request (handed_over (fun _ => true)) 3 the_request
           (Book.mk "Matilda" "Roald Dahl" "Fiction" "8-12"
                    "https://example.org/matilda.png" Exchange "pending" 3) []);
    [left; reflexivity|repeat constructor; simpl; intuition lia|simpl; lia
    |reflexivity|reflexivity|reflexivity|lia|simpl; lia|simpl; lia|reflexivity].
Defined.

(** X21, at the shelf: member 1 adds a book. *)
Lemma created_book_effect_witness :
  exists b,
    data (snd (createBook (fun _ => true) shelf (Some 1) a_book_body)) = Some b /\
    Book.ownerId b = 1 /\ Book.status b = "available"%string.
Proof.
  destruct (created_book_effect (fun _ => true) shelf (Some 1) a_book_body
              (reachable_initial _ shelf shelf_initial) eq_refl)
    as (u & b & av & Hu & Hdata & Hown & Hst & _).
  exists b. injection Hu as <-. repeat split; assumption.
Defined.

(** X22, at the shelf: member 2 tries to delete book 1. *)
Lemma other_members_books_are_safe_witness :
  books (handle (fun _ => true) shelf (DELETE_books (Some 2) (Some 1))) !! 1
  = Some (a_book Exchange 1).
Proof.
  apply (other_members_books_are_safe (fun _ => true) shelf
           (DELETE_books (Some 2) (Some 1)) 1 (a_book Exchange 1)
           (reachable_initial _ shelf shelf_initial) eq_refl eq_refl).
  simpl. discriminate.
Defined.

(** X24, at the shelf: member 1 deletes book 1, twice. *)
Lemma deleted_book_is_gone_witness :
  code (snd (deleteBook (fst (deleteBook shelf (Some 1) (Some 1)))
               (Some 1) (Some 1))) = 404.
Proof.
  destruct (deleted_book_is_gone (fun _ => true) shelf (Some 1) (Some 1) eq_refl)
    as (_ & Hagain & _).
  exact Hagain.
Defined.

(** X25, at the exchange request: member 1 rejects it. *)
Lemma requests_are_never_deleted_witness :
  exists s,
    In (Transaction.set_status s the_request)
       (transactions (handle (fun _ => true) exchange_requested
                        (PATCH_transaction (Some 1) (Some 1)
                           (UpdateTransactionBody.mk "rejected")))) /\
    (Transaction.status the_request <> pending ->
     s = Transaction.status the_request).
Proof.
  apply (requests_are_never_deleted (fun _ => true) exchange_requested
           (PATCH_transaction (Some 1) (Some 1) (UpdateTransactionBody.mk "rejected"))
           the_request (exchange_requested_reachable _) (or_introl eq_refl)).
Defined.

(** X26, at the exchange request: member 2 tries to delete the book they
    offered. *)
Lemma referenced_book_is_never_deleted_witness :
  is_Some (books (handle (fun _ => true) exchange_requested
                    (DELETE_books (Some 2) (Some 2))) !! 2).
Proof.
  apply (referenced_book_is_never_deleted (fun _ => true) exchange_requested
           (DELETE_books (Some 2) (Some 2)) the_request 2
           (exchange_requested_reachable _) (or_introl eq_refl) eq_refl).
Defined.

(** X27, at the shelf: member 1 adds a book and deletes it. *)
Lemma delete_undoes_create_witness :
  deleteBook (fst (createBook (fun _ => true) shelf (Some 1) a_book_body))
             (Some 1) (Some 3)
  = (mkDb (books shelf) [] 4 1, success 200 "Book deleted successfully" None).
Proof.
  apply (delete_undoes_create (fun _ => true) shelf (Some 1) a_book_body
           (reachable_initial _ shelf shelf_initial)); [simpl; lia|reflexivity].
Defined.
